(** * LangLink+ backend (server.js): progress ledger and streak tracker

    A shallow embedding of the request handlers of [server.js] that read and
    write a user's experience, level, streak, last-active date and
    per-language lesson counters:

    - [GET  /api/progress/:email/:lang]  ([get_progress])
    - [POST /api/submit]                 ([submit])
    - [POST /api/complete-lesson]        ([complete_lesson])
    - [POST /api/update-streak]          ([update_streak])

    and of the handlers around them:

    - [GET  /api/questions/:lang]        ([get_questions])
    - [POST /api/register]               ([register])
    - [POST /api/login]                  ([login])
    - [GET  /api/dashboard/:email]       ([dashboard])
    - [GET  /api/leaderboard]            ([leaderboard])
    - [authMiddleware]                   ([authMiddleware])

    The handlers' [try]/[catch] blocks and early [return res.status(..)]
    exits are an error monad over an explicit database state, which also
    records the statements executed.

    Conventions of the model:
    - numbers are mathematical integers ([Z]): scores and experience are
      counts, and no rounding of doubles or overflow of a column is modelled;
    - request fields have the types the handlers expect (strings and
      numbers), each possibly missing;
    - requests run one after the other; every well-formed statement
      succeeds, and a statement whose text does not parse throws;
    - a row is found by its exact email;
    - bcrypt and jsonwebtoken are parameters of the handlers that call
      them, and what a property needs of them is a hypothesis of it;
    - a calendar date is a day number (days since the epoch) and a [Date] is
      a number of milliseconds since the epoch; a DATE column is read as the
      [Date] of local midnight; the local offset from UTC is constant (no
      daylight saving). *)

From Stdlib Require Import ZArith Lia Ascii.
From stdpp Require Import base option strings list gmap fin_maps sorting.

Local Open Scope string_scope.
Local Open Scope Z_scope.

(** ** JavaScript values that reach the SQL text *)

Module JS.

(** The values a property read on [LANG_COLUMN_MAP] can produce: one of the
    map's own strings, or a member inherited from [Object.prototype]
    (a built-in function, or the prototype object itself for
    [__proto__]). *)
Inductive value :=
| VString (s : string)
| VFunction (name : string)
| VObject.

(** [!!v] is [false]: only the empty string among these values. *)
Definition truthy (v : value) : bool :=
  match v with
  | VString s => negb (bool_decide (s = ""))
  | VFunction _ | VObject => true
  end.

(** [`${v}`]: the text a template literal inserts for [v]. *)
Definition template (v : value) : string :=
  match v with
  | VString s => s
  | VFunction name => "function " +:+ name +:+ "() { [native code] }"
  | VObject => "[object Object]"
  end.

(** The members every object literal inherits from [Object.prototype]. *)
Definition OBJECT_PROTOTYPE : gmap string value :=
  list_to_map
    [ ("constructor", VFunction "Object");
      ("__defineGetter__", VFunction "__defineGetter__");
      ("__defineSetter__", VFunction "__defineSetter__");
      ("hasOwnProperty", VFunction "hasOwnProperty");
      ("__lookupGetter__", VFunction "__lookupGetter__");
      ("__lookupSetter__", VFunction "__lookupSetter__");
      ("isPrototypeOf", VFunction "isPrototypeOf");
      ("propertyIsEnumerable", VFunction "propertyIsEnumerable");
      ("toString", VFunction "toString");
      ("valueOf", VFunction "valueOf");
      ("__proto__", VObject);
      ("toLocaleString", VFunction "toLocaleString") ].

(** [obj[key]] on an object literal with own string properties [own]:
    the own property if there is one, else the inherited member, else
    [undefined] ([None]). *)
Definition get (own : gmap string string) (key : string) : option value :=
  match own !! key with
  | Some s => Some (VString s)
  | None => OBJECT_PROTOTYPE !! key
  end.

(** [x || 0] on a possibly-NULL number. *)
Definition or_zero (x : option Z) : Z :=
  match x with
  | Some n => if n =? 0 then 0 else n
  | None => 0
  end.

(** [!s] is [false]: a request field that is present and not empty. *)
Definition present (s : option string) : option string :=
  match s with
  | Some s' => if bool_decide (s' = "") then None else Some s'
  | None => None
  end.

End JS.

Arguments JS.or_zero : simpl never.

(** ** Supported languages *)

Definition LANG_COLUMN_ENTRIES : list (string * string) :=
  [ ("Spanish", "progress_spanish");
    ("French", "progress_french");
    ("Hindi", "progress_hindi");
    ("Kannada", "progress_kannada");
    ("Tamil", "progress_tamil");
    ("Telugu", "progress_telugu");
    ("Marathi", "progress_marathi");
    ("Malayalam", "progress_malayalam");
    ("Bhojpuri", "progress_bhojpuri");
    ("Rajasthani", "progress_rajasthani");
    ("Punjabi", "progress_punjabi");
    ("Kashmiri", "progress_kashmiri");
    ("Urdu", "progress_urdu");
    ("Korean", "progress_korean") ].

Definition LANG_COLUMN_MAP : gmap string string :=
  list_to_map LANG_COLUMN_ENTRIES.

(** [return LANG_COLUMN_MAP[lang] || null;] *)
Definition getProgressColumn (lang : string) : option JS.value :=
  match JS.get LANG_COLUMN_MAP lang with
  | Some v => if JS.truthy v then Some v else None
  | None => None
  end.

(** A language of the supported set: an own key of [LANG_COLUMN_MAP]. *)
Definition supported (lang : string) : Prop :=
  is_Some (LANG_COLUMN_MAP !! lang).

(** ** The users table *)

Inductive Level := Beginner | Intermediate | Advanced | Expert.

#[global] Instance Level_eq_dec : EqDecision Level.
Proof. solve_decision. Defined.

(** Modelled from the spec: the schema of the [users] table, which is not
    part of the source. A row holds the cumulative experience ([xp]), the
    [level], the [streak], the optional last-active calendar date (a day
    number; [None] is SQL NULL) and one lesson counter per progress column
    (a column that is absent from [progress] is NULL). *)
Record user := User {
  xp : Z;
  level : Level;
  streak : Z;
  last_active : option Z;
  progress : gmap string Z
}.

(** Modelled from the spec: the progress columns of the [users] table, one per
    supported language (the thirteen the dashboard query selects, and
    [progress_korean]). *)
Definition PROGRESS_COLUMNS : list string :=
  [ "progress_spanish"; "progress_french"; "progress_hindi";
    "progress_kannada"; "progress_tamil"; "progress_telugu";
    "progress_marathi"; "progress_malayalam"; "progress_bhojpuri";
    "progress_rajasthani"; "progress_punjabi"; "progress_kashmiri";
    "progress_urdu"; "progress_korean" ].

(** The SQL text names a column of the table; any other text in a column
    position makes the statement fail to parse. *)
Definition is_column (text : string) : bool :=
  bool_decide (text ∈ PROGRESS_COLUMNS).

(** A statement the database executed, with the email bound to its [?]. *)
Inductive statement :=
| Select (email : string)
| Update (email : string).

(** The database: the rows of [users] keyed by email, and the statements
    executed so far, oldest first. *)
Record db := Db {
  users : gmap string user;
  log : list statement
}.

(** The lesson count a row shows for a column: NULL reads as 0. *)
Definition lessons (u : user) (column : string) : Z :=
  default 0 (progress u !! column).

(** ** Handlers as an error monad over the database *)

(** How a handler ends without a result: [400] with a message about a missing
    field, [400 'Unsupported language'], [404 'User not found'], or the [500]
    of its [catch] block. *)
Inductive error :=
| InvalidInput
| UnsupportedLanguage
| NotFound
| StoreFailure.

#[global] Instance error_eq_dec : EqDecision error.
Proof. solve_decision. Defined.

Definition handler (A : Type) : Type := db → db * (error + A).

#[global] Instance handler_ret : MRet handler :=
  λ A a d, (d, inr a).

#[global] Instance handler_bind : MBind handler :=
  λ A B f m d,
    match m d with
    | (d', inr a) => f a d'
    | (d', inl e) => (d', inl e)
    end.

(** An early [return res.status(..)], or an exception reaching [catch]. *)
Definition fail {A : Type} (e : error) : handler A :=
  λ d, (d, inl e).

(** [db.execute('SELECT .. FROM users WHERE email = ?', [email])] *)
Definition select_user (email : string) : handler (option user) :=
  λ d, (Db (users d) (log d ++ [Select email]), inr (users d !! email)).

(** [db.execute(`SELECT .., ${column} AS progress FROM users WHERE email = ?`)]:
    the row and its [progress] value; the statement is rejected, and the
    promise throws, when the interpolated text is not a column. *)
Definition select_progress (column email : string)
  : handler (option (user * option Z)) :=
  λ d,
    if is_column column
    then (Db (users d) (log d ++ [Select email]),
          inr ((λ u, (u, progress u !! column)) <$> users d !! email))
    else (d, inl StoreFailure).

(** [db.execute('UPDATE users SET .. WHERE email = ?')] with the new row
    given by [set]. *)
Definition update_user (email : string) (set : user → user) : handler unit :=
  λ d, (Db (alter set email (users d)) (log d ++ [Update email]), inr tt).

(** The same, for a statement whose column comes from a template. *)
Definition update_column (column email : string) (set : user → user)
  : handler unit :=
  λ d, if is_column column then update_user email set d
       else (d, inl StoreFailure).

(** ** Clock and dates *)

(** What a request sees of the time: [new Date()] in milliseconds since the
    epoch, the offset of the process's local time from UTC in milliseconds,
    and the database's [CURDATE()] as a day number. *)
Record clock := Clock {
  now : Z;
  tz : Z;
  curdate : Z
}.

Definition MS_PER_DAY : Z := 1000 * 60 * 60 * 24.

Module Date.

(** [d.toISOString().split('T')[0]]: the UTC calendar day of a time. *)
Definition isoDay (t : Z) : Z := t / MS_PER_DAY.

(** [new Date('YYYY-MM-DD')]: midnight UTC of that day. *)
Definition ofIsoDay (day : Z) : Z := day * MS_PER_DAY.

(** [d.toDateString()]: the local calendar day of a time. *)
Definition toDateString (c : clock) (t : Z) : Z := (t + tz c) / MS_PER_DAY.

(** The [Date] the driver returns for a DATE column: local midnight. *)
Definition ofColumn (c : clock) (day : Z) : Z := day * MS_PER_DAY - tz c.

(** [y = new Date(t); y.setDate(t.getDate() - 1)] *)
Definition dayBefore (t : Z) : Z := t - MS_PER_DAY.

End Date.

(** ** Level thresholds *)

(** The level chain of [POST /api/submit], over [currentXP]. *)
Definition submit_level (currentXP : Z) : Level :=
  let level := Beginner in
  if (100 <=? currentXP) && (currentXP <? 300) then Intermediate
  else if (300 <=? currentXP) && (currentXP <? 600) then Advanced
  else if 600 <=? currentXP then Expert
  else level.

(** The level chain of [POST /api/complete-lesson], over [newXP]. *)
Definition complete_lesson_level (newXP : Z) : Level :=
  let newLevel := Beginner in
  if (100 <=? newXP) && (newXP <? 300) then Intermediate
  else if (300 <=? newXP) && (newXP <? 600) then Advanced
  else if 600 <=? newXP then Expert
  else newLevel.

(** The thresholds as the specification words them: the level of an
    experience value. *)
Definition level_of (e : Z) : Level :=
  if e <? 100 then Beginner
  else if e <? 300 then Intermediate
  else if e <? 600 then Advanced
  else Expert.

(** ** GET /api/progress/:email/:lang *)

Record progress_view := ProgressView {
  pv_xp : Z;
  pv_level : Level;
  pv_lessonsCompleted : Z;
  pv_totalLessons : Z
}.

Definition get_progress (email lang : string) : handler progress_view :=
  match getProgressColumn lang with
  | None => fail UnsupportedLanguage
  | Some column =>
      rows ← select_progress (JS.template column) email;
      match rows with
      | None => fail NotFound
      | Some (row, p) =>
          let progress := JS.or_zero p in
          let totalLessons := 10 in
          mret (ProgressView (xp row) (level row) progress totalLessons)
      end
  end.

(** ** POST /api/submit *)

Record submit_body := SubmitBody {
  sb_email : option string;
  sb_score : option Z;
  sb_lang : option string
}.

Record submit_result := SubmitResult {
  sr_xp : Z;
  sr_level : Level;
  sr_lessonsCompleted : Z
}.

Definition submit (body : submit_body) : handler submit_result :=
  match JS.present (sb_email body), sb_score body,
        JS.present (sb_lang body) with
  | Some email, Some score, Some lang =>
      match getProgressColumn lang with
      | None => fail UnsupportedLanguage
      | Some progressCol =>
          let xpGain := score * 10 in
          rows ← select_progress (JS.template progressCol) email;
          match rows with
          | None => fail NotFound
          | Some (row, p) =>
              let currentXP := JS.or_zero (Some (xp row)) + xpGain in
              let newProgress := JS.or_zero p + 1 in
              let level := submit_level currentXP in
              update_column (JS.template progressCol) email
                (λ u, User currentXP level (streak u) (last_active u)
                        (<[JS.template progressCol := newProgress]>
                           (progress u)));;
              mret (SubmitResult currentXP level newProgress)
          end
      end
  | _, _, _ => fail InvalidInput
  end.

(** ** POST /api/complete-lesson *)

Record lesson_body := LessonBody {
  lb_email : option string;
  lb_gainedXP : option Z;
  lb_lang : option string
}.

Record lesson_result := LessonResult {
  lr_xp : Z;
  lr_level : Level;
  lr_streak : Z
}.

(** The day difference the handler computes between today (midnight UTC) and
    the stored date as the driver returns it. *)
Definition diffDays (c : clock) (last_active_day : Z) : Z :=
  let today := Date.isoDay (now c) in
  let lastActive := Date.ofColumn c last_active_day in
  (Date.ofIsoDay today - lastActive) / MS_PER_DAY.

(** The streak computed inside [complete-lesson]. *)
Definition lesson_streak (c : clock) (user : user) : Z :=
  let streak0 := JS.or_zero (Some (streak user)) in
  match last_active user with
  | Some day =>
      if diffDays c day =? 1 then streak0 + 1
      else if 1 <? diffDays c day then 1
      else streak0
  | None => 1
  end.

(** [UPDATE users SET col = col + 1]: NULL + 1 is NULL, so a missing counter
    stays missing. *)
Definition bump (column : string) (u : user) : user :=
  User (xp u) (level u) (streak u) (last_active u)
       (alter (λ n, n + 1) column (progress u)).

Definition complete_lesson (c : clock) (body : lesson_body)
  : handler lesson_result :=
  match JS.present (lb_email body) with
  | None => fail InvalidInput
  | Some email =>
      let gainedXP := default 20 (lb_gainedXP body) in
      rows ← select_user email;
      match rows with
      | None => fail NotFound
      | Some user =>
          let today := Date.isoDay (now c) in
          let streak := lesson_streak c user in
          let newXP := JS.or_zero (Some (xp user)) + gainedXP in
          let newLevel := complete_lesson_level newXP in
          update_user email
            (λ u, User newXP newLevel streak (Some today) (progress u));;
          match JS.present (lb_lang body) with
          | Some lang =>
              match getProgressColumn lang with
              | Some progressCol =>
                  update_column (JS.template progressCol) email
                    (bump (JS.template progressCol))
              | None => mret tt
              end
          | None => mret tt
          end;;
          mret (LessonResult newXP newLevel streak)
      end
  end.

(** ** POST /api/update-streak *)

(** The streak computed by [update-streak]. *)
Definition ping_streak (c : clock) (row : user) : Z :=
  let lastActive := last_active row in
  let currentStreak := JS.or_zero (Some (streak row)) in
  let today := now c in
  let yesterday := Date.dayBefore today in
  match lastActive with
  | None => 1
  | Some day =>
      let last := Date.ofColumn c day in
      if Date.toDateString c last =? Date.toDateString c yesterday
      then currentStreak + 1
      else if negb (Date.toDateString c last =? Date.toDateString c today)
      then 1
      else currentStreak
  end.

Definition update_streak (c : clock) (email : option string) : handler Z :=
  match JS.present email with
  | None => fail InvalidInput
  | Some email =>
      rows ← select_user email;
      match rows with
      | None => fail NotFound
      | Some row =>
          let newStreak := ping_streak c row in
          update_user email
            (λ u, User (xp u) (level u) newStreak (Some (curdate c))
                    (progress u));;
          mret newStreak
      end
  end.

(** ** Requests and runs *)

Inductive request :=
| GetProgress (email lang : string)
| SubmitQuiz (body : submit_body)
| CompleteLesson (c : clock) (body : lesson_body)
| UpdateStreak (c : clock) (email : option string).

(** The database after a request, and how the request ended. *)
Definition serve (r : request) (d : db) : db * option error :=
  let finish {A} (x : db * (error + A)) : db * option error :=
    (x.1, match x.2 with inl e => Some e | inr _ => None end) in
  match r with
  | GetProgress email lang => finish (get_progress email lang d)
  | SubmitQuiz body => finish (submit body d)
  | CompleteLesson c body => finish (complete_lesson c body d)
  | UpdateStreak c email => finish (update_streak c email d)
  end.

(** The last-active date stored for an email. *)
Definition stored_last_active (d : db) (email : string) : option Z :=
  users d !! email ≫= last_active.

(** The date a request writes into [last_active] when it gets that far. *)
Definition written_date (r : request) : option Z :=
  match r with
  | CompleteLesson c _ => Some (Date.isoDay (now c))
  | UpdateStreak c _ => Some (curdate c)
  | GetProgress _ _ | SubmitQuiz _ => None
  end.

(** The order on optional dates in which an absent date is below every date
    and no date is below an absent one. *)
Definition date_le (a b : option Z) : Prop :=
  match a, b with
  | None, _ => True
  | Some x, Some y => x <= y
  | Some _, None => False
  end.

(** ** The rows the handlers write *)

(** The row [POST /api/submit] leaves for a row [u], a column and a score. *)
Definition submitted (u : user) (column : string) (score : Z) : user :=
  User (xp u + score * 10) (submit_level (xp u + score * 10))
       (streak u) (last_active u)
       (<[column := lessons u column + 1]> (progress u)).

(** The row the first [UPDATE] of [POST /api/complete-lesson] leaves. *)
Definition lesson_done (c : clock) (u : user) (gainedXP : Z) : user :=
  User (xp u + gainedXP) (complete_lesson_level (xp u + gainedXP))
       (lesson_streak c u) (Some (Date.isoDay (now c))) (progress u).

(** The row [POST /api/update-streak] leaves. *)
Definition pinged (c : clock) (u : user) : user :=
  User (xp u) (level u) (ping_streak c u) (Some (curdate c)) (progress u).

(** The email a request names, when it names one. *)
Definition request_email (r : request) : option string :=
  match r with
  | GetProgress email _ => Some email
  | SubmitQuiz body => sb_email body
  | CompleteLesson _ body => lb_email body
  | UpdateStreak _ email => email
  end.

(** How a request may change the row it names. *)
Definition row_step (r : request) (u u' : user) : Prop :=
  match r with
  | GetProgress _ _ => False
  | SubmitQuiz body =>
      ∃ score lang col,
        sb_score body = Some score ∧ sb_lang body = Some lang ∧
        LANG_COLUMN_MAP !! lang = Some col ∧ u' = submitted u col score
  | CompleteLesson c body =>
      u' = lesson_done c u (default 20 (lb_gainedXP body)) ∨
      ∃ lang col,
        lb_lang body = Some lang ∧ LANG_COLUMN_MAP !! lang = Some col ∧
        u' = bump col (lesson_done c u (default 20 (lb_gainedXP body)))
  | UpdateStreak c _ => u' = pinged c u
  end.

(** Every stored level is the level of the stored experience. *)
Definition in_sync (d : db) : Prop :=
  ∀ email u, users d !! email = Some u → level u = level_of (xp u).

(** Each request of a run, in turn, leaves the stored date of [email] where
    it was or moves it forward. *)
Fixpoint moves_forward (d : db) (email : string) (rs : list request) : Prop :=
  match rs with
  | [] => True
  | r :: rs' =>
      date_le (stored_last_active d email)
              (stored_last_active (serve r d).1 email) ∧
      moves_forward (serve r d).1 email rs'
  end.

(** Each request of a run, in turn, carries a date that is not earlier than
    the date stored for [email] when the request arrives. *)
Fixpoint dates_not_earlier (d : db) (email : string) (rs : list request)
  : Prop :=
  match rs with
  | [] => True
  | r :: rs' =>
      (∀ w day, written_date r = Some w →
                stored_last_active d email = Some day → day <= w) ∧
      dates_not_earlier (serve r d).1 email rs'
  end.

(** ** Sample data *)

(** Modelled from the spec: the row at registration. The INSERT of
    [POST /api/register] sets [xp] to 0 and the level to ['Beginner']; the
    other columns take the defaults of the table, which the specification
    gives as streak 0, no last-active date and every counter 0. *)
Definition registered : user :=
  User 0 Beginner 0 None (list_to_map ((λ c, (c, 0)) <$> PROGRESS_COLUMNS)).

(** A row with 40 points and a streak of 3 that was last active on day 6. *)
Definition active : user := User 40 Beginner 3 (Some 6) ∅.

Definition ana : string := "ana@example.com".

Definition one_user (u : user) : db := Db {[ ana := u ]} [].

(** Noon UTC on day [day], in a process whose local time is UTC and whose
    database agrees on the date. *)
Definition noon (day : Z) : clock :=
  Clock (day * MS_PER_DAY + MS_PER_DAY / 2) 0 day.

(** ** Orders and invariants of the stored rows *)

(** The position of a level in the ladder. *)
Definition level_rank (l : Level) : Z :=
  match l with
  | Beginner => 0
  | Intermediate => 1
  | Advanced => 2
  | Expert => 3
  end.

(** A row whose last-active date is set has a streak of at least 1; a row
    that was never active has a streak that is not negative. *)
Definition streak_ok (u : user) : Prop :=
  match last_active u with
  | Some _ => 1 <= streak u
  | None => 0 <= streak u
  end.

(** The database after a run of requests, served one after the other. *)
Definition run (rs : list request) (d : db) : db :=
  foldl (λ d r, (serve r d).1) d rs.

(** A request that carries no negative amount: the score of a quiz, the
    experience of a lesson (20 when it is left out). *)
Definition gain_not_negative (r : request) : Prop :=
  match r with
  | SubmitQuiz body => ∀ score, sb_score body = Some score → 0 <= score
  | CompleteLesson _ body => 0 <= default 20 (lb_gainedXP body)
  | GetProgress _ _ | UpdateStreak _ _ => True
  end.

(** ** GET /api/questions/:lang *)

Record question := Question {
  q_question : string;
  q_options : list string;
  q_answer : string;
  q_hint : string
}.
(** The questions served for [Spanish]. *)
Definition SPANISH_QUESTIONS : list question :=
  [ Question
      "What is the Spanish word for 'Apple'?"
      ["Manzana"; "Pera"; "Banana"; "Uva"]
      "Manzana"
      "🍎 Starts with M and sounds like ‘man-zah-na’.";
    Question
      "How do you say 'Thank you' in Spanish?"
      ["Hola"; "Gracias"; "Adiós"; "Por favor"]
      "Gracias"
      "🙏 Used to thank someone politely.";
    Question
      "How do you say 'Good morning' in Spanish?"
      ["Buenas noches"; "Buenos días"; "Buenas tardes"; "Hola"]
      "Buenos días"
      "☀️ Literally means ‘good days’.";
    Question
      "What is 'Hello' in Spanish?"
      ["Hola"; "Bonjour"; "Ciao"; "Hallo"]
      "Hola"
      "💡 It starts with an H but sounds like 'Ola'." ].

(** The questions served for [French]. *)
Definition FRENCH_QUESTIONS : list question :=
  [ Question
      "What is the French word for 'Apple'?"
      ["Pomme"; "Banane"; "Orange"; "Raisin"]
      "Pomme"
      "🍎 Pronounced like 'pom'.";
    Question
      "How do you say 'Thank you' in French?"
      ["Bonjour"; "Merci"; "Au revoir"; "S'il vous plaît"]
      "Merci"
      "🙏 Commonly used to say thanks.";
    Question
      "How do you say 'Good morning' in French?"
      ["Bonsoir"; "Bonjour"; "Bonne nuit"; "Salut"]
      "Bonjour"
      "☀️ Means ‘Good day’ — used in the morning." ].

(** The questions served for [Hindi]. *)
Definition HINDI_QUESTIONS : list question :=
  [ Question
      "What is the Hindi word for 'Apple'?"
      ["सेब"; "केला"; "आम"; "अंगूर"]
      "सेब"
      "🍎 Simple word, similar to English ‘seb’.";
    Question
      "How do you say 'Thank you' in Hindi?"
      ["नमस्ते"; "धन्यवाद"; "अलविदा"; "कृपया"]
      "धन्यवाद"
      "🙏 Used when expressing gratitude.";
    Question
      "How do you say 'Good morning' in Hindi?"
      ["शुभ संध्या"; "सुप्रभात"; "शुभ रात्रि"; "नमस्ते"]
      "सुप्रभात"
      "☀️ Literally means ‘auspicious morning’.";
    Question
      "What is the Hindi word for 'Water'?"
      ["दूध"; "जल"; "सिरका"; "रस"]
      "जल"
      "💧 Sanskrit-origin word for water.";
    Question
      "How do you say 'I am learning Hindi'?"
      ["मैं हिंदी सीख रहा हूँ"; "मैं हिंदी बोलता हूँ"; "मैं हिंदी जानता हूँ"; "मैं हिंदी पढ़ता हूँ"]
      "मैं हिंदी सीख रहा हूँ"
      "📘 ‘सीख रहा हूँ’ = ‘am learning’." ].

(** The questions served for [Kannada]. *)
Definition KANNADA_QUESTIONS : list question :=
  [ Question
      "What is the Kannada word for 'Apple'?"
      ["ಸೇಬು"; "ಬಾಳೆಹಣ್ಣು"; "ಮಾವು"; "ದ್ರಾಕ್ಷಿ"]
      "ಸೇಬು"
      "🍎 Sounds like ‘Sebu’, similar to Hindi ‘Seb’.";
    Question
      "How do you say 'Thank you' in Kannada?"
      ["ಹಲೋ"; "ಧನ್ಯವಾದಗಳು"; "ವಿದಾಯ"; "ದಯವಿಟ್ಟು"]
      "ಧನ್ಯವಾದಗಳು"
      "🙏 Formal way to say thanks.";
    Question
      "How do you say 'Good morning' in Kannada?"
      ["ಶುಭ ರಾತ್ರಿ"; "ಶುಭೋದಯ"; "ಶುಭ ಸಂಜೆ"; "ಹಲೋ"]
      "ಶುಭೋದಯ"
      "☀️ Means ‘auspicious dawn’.";
    Question
      "What is the Kannada word for 'Water'?"
      ["ಹಾಲು"; "ನೀರು"; "ರಸ"; "ಮದ್ಯ"]
      "ನೀರು"
      "💧 Commonly used word for water.";
    Question
      "How do you say 'I am learning Kannada'?"
      ["ನಾನು ಕನ್ನಡ ಕಲಿಯುತ್ತಿದ್ದೇನೆ"; "ನಾನು ಕನ್ನಡ ಮಾತಾಡುತ್ತೇನೆ"; "ನಾನು ಕನ್ನಡ ತಿಳಿದಿದ್ದೇನೆ"; "ನಾನು ಕನ್ನಡ ಓದುತ್ತಿದ್ದೇನೆ"]
      "ನಾನು ಕನ್ನಡ ಕಲಿಯುತ್ತಿದ್ದೇನೆ"
      "📘 ‘ಕಲಿಯುತ್ತಿದ್ದೇನೆ’ = learning." ].

(** The questions served for [Tamil]. *)
Definition TAMIL_QUESTIONS : list question :=
  [ Question
      "What is the Tamil word for 'Apple'?"
      ["ஆப்பிள்"; "வாழைப்பழம்"; "மாம்பழம்"; "திராட்சை"]
      "ஆப்பிள்"
      "🍎 Sounds very similar to English.";
    Question
      "How do you say 'Thank you' in Tamil?"
      ["வணக்கம்"; "நன்றி"; "பிரியா"; "தயவு செய்து"]
      "நன்றி"
      "🙏 Used daily to express gratitude.";
    Question
      "How do you say 'Good morning' in Tamil?"
      ["இரவு வணக்கம்"; "காலை வணக்கம்"; "மதிய வணக்கம்"; "வணக்கம்"]
      "காலை வணக்கம்"
      "☀️ ‘காலை’ means morning.";
    Question
      "What is the Tamil word for 'Water'?"
      ["பால்"; "தண்ணீர்"; "சாறு"; "மதுவை"]
      "தண்ணீர்"
      "💧 Common household word for water.";
    Question
      "How do you say 'I am learning Tamil'?"
      ["நான் தமிழ் கற்கிறேன்"; "நான் தமிழ் பேசுகிறேன்"; "நான் தமிழ் தெரிகிறது"; "நான் தமிழ் படிக்கிறேன்"]
      "நான் தமிழ் கற்கிறேன்"
      "📘 ‘கற்கிறேன்’ means learning." ].

(** The questions served for [Telugu]. *)
Definition TELUGU_QUESTIONS : list question :=
  [ Question
      "What is the Telugu word for 'Apple'?"
      ["సేపు"; "ఆపిల్"; "మామిడి"; "ద్రాక్ష"]
      "ఆపిల్"
      "🍎 Similar to the English word.";
    Question
      "How do you say 'Thank you' in Telugu?"
      ["ధన్యవాదాలు"; "నమస్కారం"; "కృప"; "దయచేసి"]
      "ధన్యవాదాలు"
      "🙏 Formal way to say thanks.";
    Question
      "How do you say 'Good morning' in Telugu?"
      ["శుభరాత్రి"; "శుభోదయం"; "శుభమధ్యాహ్నం"; "హలో"]
      "శుభోదయం"
      "☀️ Means ‘auspicious morning’.";
    Question
      "What is the Telugu word for 'Water'?"
      ["నీరు"; "పాలు"; "రసం"; "వైన్"]
      "నీరు"
      "💧 Used everywhere for water.";
    Question
      "How do you say 'I am learning Telugu'?"
      ["నేను తెలుగు నేర్చుకుంటున్నాను"; "నేను తెలుగు మాట్లాడుతున్నాను"; "నేను తెలుగు తెలుసు"; "నేను తెలుగు చదువుతున్నాను"]
      "నేను తెలుగు నేర్చుకుంటున్నాను"
      "📘 ‘నేర్చుకుంటున్నాను’ means learning." ].

(** The questions served for [Marathi]. *)
Definition MARATHI_QUESTIONS : list question :=
  [ Question
      "What is the Marathi word for 'Apple'?"
      ["सफरचंद"; "केळी"; "आंबा"; "द्राक्ष"]
      "सफरचंद"
      "🍎 Sounds like ‘Safarchand’, means apple.";
    Question
      "How do you say 'Thank you' in Marathi?"
      ["धन्यवाद"; "नमस्कार"; "कृपया"; "सर्वोत्तम"]
      "धन्यवाद"
      "🙏 Used to thank politely.";
    Question
      "How do you say 'Good morning' in Marathi?"
      ["शुभ रात्री"; "सुप्रभात"; "शुभ दुपारी"; "नमस्कार"]
      "सुप्रभात"
      "☀️ Literally ‘auspicious morning’.";
    Question
      "What is the Marathi word for 'Water'?"
      ["पाणी"; "दूध"; "रस"; "सार"]
      "पाणी"
      "💧 Everyday word for water.";
    Question
      "How do you say 'I am learning Marathi'?"
      ["मी मराठी शिकत आहे"; "मी मराठी बोलतो आहे"; "मी मराठी जाणतो"; "मी मराठी वाचतो आहे"]
      "मी मराठी शिकत आहे"
      "📘 ‘शिकत आहे’ = learning." ].

(** The questions served for [Malayalam]. *)
Definition MALAYALAM_QUESTIONS : list question :=
  [ Question
      "What is the Malayalam word for 'Apple'?"
      ["ആപ്പിൾ"; "മാമ്പഴം"; "ബനാന"; "മുന്തിരി"]
      "ആപ്പിൾ"
      "🍎 Sounds like English ‘apple’.";
    Question
      "How do you say 'Thank you' in Malayalam?"
      ["നന്ദി"; "ഹലോ"; "വിട"; "ദയവായി"]
      "നന്ദി"
      "🙏 Very common and polite.";
    Question
      "How do you say 'Good morning' in Malayalam?"
      ["ശുഭ രാത്രി"; "സുപ്രഭാതം"; "ശുഭ സന്ദേഹം"; "ഹലോ"]
      "സുപ്രഭാതം"
      "☀️ Means a bright good morning.";
    Question
      "What is the Malayalam word for 'Water'?"
      ["വെള്ളം"; "പാൽ"; "ജ്യൂസ്"; "വൈൻ"]
      "വെള്ളം"
      "💧 Commonly used for water.";
    Question
      "How do you say 'I am learning Malayalam'?"
      ["ഞാൻ മലയാളം പഠിക്കുന്നു"; "ഞാൻ മലയാളം സംസാരിക്കുന്നു"; "ഞാൻ മലയാളം എഴുതുന്നു"; "ഞാൻ മലയാളം വായിക്കുന്നു"]
      "ഞാൻ മലയാളം പഠിക്കുന്നു"
      "📘 ‘പഠിക്കുന്നു’ means learning/studying." ].

(** The questions served for [Bhojpuri]. *)
Definition BHOJPURI_QUESTIONS : list question :=
  [ Question
      "What is the Bhojpuri word for 'Apple'?"
      ["सेब"; "केला"; "अंगूर"; "संतरा"]
      "सेब"
      "🍎 Same as Hindi — simple!";
    Question
      "How do you say 'Thank you' in Bhojpuri?"
      ["धन्यवाद"; "नमस्ते"; "अलविदा"; "कृपया"]
      "धन्यवाद"
      "🙏 Same as Hindi, polite and respectful.";
    Question
      "How do you say 'Good morning' in Bhojpuri?"
      ["सुप्रभात"; "शुभ रात्रि"; "नमस्ते"; "अलविदा"]
      "सुप्रभात"
      "☀️ Common morning greeting.";
    Question
      "What is the Bhojpuri word for 'Water'?"
      ["पानी"; "दूध"; "जूस"; "शराब"]
      "पानी"
      "💧 Same as Hindi word for water.";
    Question
      "How do you say 'I am learning Bhojpuri'?"
      ["हम भोजपुरी सीखत बानी"; "हम भोजपुरी बोलत बानी"; "हम भोजपुरी पढ़त बानी"; "हम भोजपुरी लिखत बानी"]
      "हम भोजपुरी सीखत बानी"
      "📘 ‘सीखत बानी’ = am learning." ].

(** The questions served for [Rajasthani]. *)
Definition RAJASTHANI_QUESTIONS : list question :=
  [ Question
      "What is the Rajasthani word for 'Apple'?"
      ["सेब"; "केलो"; "अंगूर"; "संतरा"]
      "सेब"
      "🍎 Same as Hindi — easy start!";
    Question
      "How do you say 'Thank you' in Rajasthani?"
      ["धन्यवाद"; "राम राम"; "अलविदा"; "कृपया"]
      "धन्यवाद"
      "🙏 Often said as ‘धन्यवाद सा’ respectfully.";
    Question
      "How do you say 'Good morning' in Rajasthani?"
      ["राम राम सा"; "सुप्रभात"; "नमस्ते"; "अलविदा"]
      "राम राम सा"
      "☀️ Traditional greeting used anytime.";
    Question
      "What is the Rajasthani word for 'Water'?"
      ["पाणी"; "दूध"; "जूस"; "शराब"]
      "पाणी"
      "💧 Same pronunciation as Marathi.";
    Question
      "How do you say 'I am learning Rajasthani'?"
      ["मैं राजस्थानी सीख रियो हूँ"; "मैं राजस्थानी बोल रियो हूँ"; "मैं राजस्थानी पढ़ रियो हूँ"; "मैं राजस्थानी लिख रियो हूँ"]
      "मैं राजस्थानी सीख रियो हूँ"
      "📘 ‘सीख रियो हूँ’ = am learning." ].

(** The questions served for [Punjabi]. *)
Definition PUNJABI_QUESTIONS : list question :=
  [ Question
      "What is the Punjabi word for 'Apple'?"
      ["ਸੇਬ"; "ਕੇਲਾ"; "ਅੰਗੂਰ"; "ਸੰਤਰਾ"]
      "ਸੇਬ"
      "🍎 Same as Hindi word — easy!";
    Question
      "How do you say 'Thank you' in Punjabi?"
      ["ਧੰਨਵਾਦ"; "ਸਤ ਸ੍ਰੀ ਅਕਾਲ"; "ਅਲਵਿਦਾ"; "ਕਿਰਪਾ"]
      "ਧੰਨਵਾਦ"
      "🙏 Used in polite and formal settings.";
    Question
      "How do you say 'Good morning' in Punjabi?"
      ["ਸਤ ਸ੍ਰੀ ਅਕਾਲ"; "ਸ਼ੁਭ ਸਵੇਰ"; "ਨਮਸਕਾਰ"; "ਅਲਵਿਦਾ"]
      "ਸ਼ੁਭ ਸਵੇਰ"
      "☀️ ‘ਸਵੇਰ’ means morning.";
    Question
      "What is the Punjabi word for 'Water'?"
      ["ਪਾਣੀ"; "ਦੂਧ"; "ਜੂਸ"; "ਸ਼ਰਾਬ"]
      "ਪਾਣੀ"
      "💧 Same as Hindi word for water.";
    Question
      "How do you say 'I am learning Punjabi'?"
      ["ਮੈਂ ਪੰਜਾਬੀ ਸਿੱਖ ਰਿਹਾ ਹਾਂ"; "ਮੈਂ ਪੰਜਾਬੀ ਬੋਲ ਰਿਹਾ ਹਾਂ"; "ਮੈਂ ਪੰਜਾਬੀ ਪੜ੍ਹ ਰਿਹਾ ਹਾਂ"; "ਮੈਂ ਪੰਜਾਬੀ ਲਿਖ ਰਿਹਾ ਹਾਂ"]
      "ਮੈਂ ਪੰਜਾਬੀ ਸਿੱਖ ਰਿਹਾ ਹਾਂ"
      "📘 ‘ਸਿੱਖ ਰਿਹਾ ਹਾਂ’ means learning." ].

(** The questions served for [Kashmiri]. *)
Definition KASHMIRI_QUESTIONS : list question :=
  [ Question
      "What is the Kashmiri word for 'Apple'?"
      ["سیب"; "کیلا"; "انگور"; "سنگترہ"]
      "سیب"
      "🍎 Same as Urdu — 'Seib'.";
    Question
      "How do you say 'Thank you' in Kashmiri?"
      ["شکریہ"; "سلام"; "خدا حافظ"; "مہربانی"]
      "شکریہ"
      "🙏 Common in Urdu & Persian too.";
    Question
      "How do you say 'Good morning' in Kashmiri?"
      ["صبح بخیر"; "شلام"; "نمسکار"; "الوداع"]
      "صبح بخیر"
      "☀️ Means ‘good morning’ exactly.";
    Question
      "What is the Kashmiri word for 'Water'?"
      ["پانی"; "دودھ"; "جوس"; "شراب"]
      "پانی"
      "💧 Same as Urdu and Hindi word.";
    Question
      "How do you say 'I am learning Kashmiri'?"
      ["می چھُ کشمیری سیکھان"; "می چھُ کشمیری بولان"; "می چھُ کشمیری پڈھان"; "می چھُ کشمیری لکھان"]
      "می چھُ کشمیری سیکھان"
      "📘 ‘سیکھان’ means to learn." ].

(** The questions served for [Urdu]. *)
Definition URDU_QUESTIONS : list question :=
  [ Question
      "What is the Urdu word for 'Apple'?"
      ["سیب"; "کیلا"; "انگور"; "آڑو"]
      "سیب"
      "🍎 Same word as Persian & Hindi.";
    Question
      "How do you say 'Thank you' in Urdu?"
      ["شکریہ"; "سلام"; "الوداع"; "مہربانی"]
      "شکریہ"
      "🙏 The most common polite phrase.";
    Question
      "How do you say 'Good morning' in Urdu?"
      ["صبح بخیر"; "شب بخیر"; "ہیلو"; "الوداع"]
      "صبح بخیر"
      "☀️ Literally means ‘good morning’.";
    Question
      "What is the Urdu word for 'Water'?"
      ["پانی"; "دودھ"; "جوس"; "شراب"]
      "پانی"
      "💧 Same word used across South Asia.";
    Question
      "How do you say 'I am learning Urdu'?"
      ["میں اردو سیکھ رہا ہوں"; "میں اردو بول رہا ہوں"; "میں اردو پڑھ رہا ہوں"; "میں اردو لکھ رہا ہوں"]
      "میں اردو سیکھ رہا ہوں"
      "📘 ‘سیکھ رہا ہوں’ means I am learning." ].

(** The handler: the questions of the language, or [None] for the final
    [404 'Questions not found for this language']. *)
Definition get_questions (lang : string) : option (list question) :=
  if bool_decide (lang = "Spanish") then Some SPANISH_QUESTIONS
  else if bool_decide (lang = "French") then Some FRENCH_QUESTIONS
  else if bool_decide (lang = "Hindi") then Some HINDI_QUESTIONS
  else if bool_decide (lang = "Kannada") then Some KANNADA_QUESTIONS
  else if bool_decide (lang = "Tamil") then Some TAMIL_QUESTIONS
  else if bool_decide (lang = "Telugu") then Some TELUGU_QUESTIONS
  else if bool_decide (lang = "Marathi") then Some MARATHI_QUESTIONS
  else if bool_decide (lang = "Malayalam") then Some MALAYALAM_QUESTIONS
  else if bool_decide (lang = "Bhojpuri") then Some BHOJPURI_QUESTIONS
  else if bool_decide (lang = "Rajasthani") then Some RAJASTHANI_QUESTIONS
  else if bool_decide (lang = "Punjabi") then Some PUNJABI_QUESTIONS
  else if bool_decide (lang = "Kashmiri") then Some KASHMIRI_QUESTIONS
  else if bool_decide (lang = "Urdu") then Some URDU_QUESTIONS
  else None.

(** The languages the handler has questions for, in the order of its tests. *)
Definition QUESTION_LANGUAGES : list string :=
  [ "Spanish"; "French"; "Hindi"; "Kannada"; "Tamil"; "Telugu"; "Marathi"; "Malayalam"; "Bhojpuri"; "Rajasthani"; "Punjabi"; "Kashmiri"; "Urdu" ].

(** A question a learner can answer: four different options, one of them the
    answer. *)
Definition answerable (q : question) : Prop :=
  length (q_options q) = 4%nat ∧ NoDup (q_options q) ∧
  q_answer q ∈ q_options q.

#[global] Instance answerable_dec q : Decision (answerable q).
Proof. unfold answerable. apply _. Defined.

(** ** Accounts: register, login, dashboard, leaderboard *)

(** The columns of a row of [users] that the account handlers read and
    write beside those of [user]: the id the database assigns, the name, the
    stored password hash, the learning language and the score. *)
Record account := Account {
  acc_id : Z;
  acc_name : string;
  acc_password : string;
  acc_learning_lang : string;
  acc_score : Z
}.

(** The whole table: a row is its [account] columns and its [user] columns,
    both under its email. [store] also holds the log of the statements of
    the progress and streak handlers. *)
Record site := Site {
  accounts : gmap string account;
  store : db
}.

(** Both halves of the table have the same rows. *)
Definition same_rows (s : site) : Prop :=
  dom (accounts s) = dom (users (store s)).

(** How an account handler ends without a result: 400 (a required field is
    missing), 409 (the email is taken), 404 (no such user), 401 (the password
    does not match). *)
Inductive account_error :=
| MissingFields
| AlreadyExists
| NoSuchUser
| WrongPassword.

Record register_body := RegisterBody {
  rb_name : option string;
  rb_email : option string;
  rb_password : option string;
  rb_learning_lang : option string
}.

Record login_result := LoginResult {
  lg_token : string;
  lg_name : string;
  lg_email : string
}.

(** The columns the dashboard query selects beside the account columns. *)
Definition DASHBOARD_COLUMNS : list string :=
  [ "progress_spanish"; "progress_french"; "progress_hindi";
    "progress_kannada"; "progress_tamil"; "progress_telugu";
    "progress_marathi"; "progress_malayalam"; "progress_bhojpuri";
    "progress_rajasthani"; "progress_punjabi"; "progress_kashmiri";
    "progress_urdu" ].

Record dashboard_view := DashboardView {
  dv_id : Z;
  dv_name : string;
  dv_email : string;
  dv_learning_lang : string;
  dv_level : Level;
  dv_xp : Z;
  dv_streak : Z;
  dv_last_active : option Z;
  dv_progress : list (string * option Z)
}.

(** [GET /api/dashboard/:email] *)
Definition dashboard (email : string) (s : site)
  : account_error + dashboard_view :=
  match accounts s !! email, users (store s) !! email with
  | Some a, Some u =>
      inr (DashboardView (acc_id a) (acc_name a) email (acc_learning_lang a)
             (level u) (xp u) (streak u) (last_active u)
             ((λ c, (c, progress u !! c)) <$> DASHBOARD_COLUMNS))
  | _, _ => inl NoSuchUser
  end.

Record board_entry := BoardEntry {
  be_name : string;
  be_learning_lang : string;
  be_score : Z;
  be_xp : Z;
  be_level : Level
}.

(** [ORDER BY xp DESC]: [a] may stand before [b]. *)
Definition xp_desc (a b : board_entry) : Prop := be_xp b <= be_xp a.

#[global] Instance xp_desc_dec a b : Decision (xp_desc a b).
Proof. unfold xp_desc. apply _. Defined.

#[global] Instance xp_desc_total : Total xp_desc.
Proof. intros a b. unfold xp_desc. lia. Qed.

#[global] Instance xp_desc_transitive : Transitive xp_desc.
Proof. intros a b c. unfold xp_desc. lia. Qed.

(** The rows of the table, each as the leaderboard query projects it. *)
Definition board_rows (s : site) : list board_entry :=
  (λ row, BoardEntry (acc_name row.2.1) (acc_learning_lang row.2.1)
            (acc_score row.2.1) (xp row.2.2) (level row.2.2))
    <$> map_to_list (map_zip (accounts s) (users (store s))).

(** [GET /api/leaderboard]:
    [SELECT name, learning_lang, score, xp, level FROM users
     ORDER BY xp DESC LIMIT 10]. The order among rows of equal experience is
    the database's choice; here it is the one of a stable sort. *)
Definition leaderboard (s : site) : list board_entry :=
  take 10 (merge_sort xp_desc (board_rows s)).

Section External.

(** [bcrypt.hash(password, 10)] with the salt it draws, and
    [bcrypt.compare(password, hash)]. *)
Variable bcrypt_hash : string → string → string.
Variable bcrypt_compare : string → string → bool.

(** [jwt.sign({ email, id }, JWT_SECRET, { expiresIn: '7d' })] at a time. *)
Variable jwt_sign : string * Z → Z → string.

(** The values of the columns that the INSERT of [register] leaves to the
    table's defaults. *)
Variable default_streak : Z.
Variable default_last_active : option Z.
Variable default_progress : gmap string Z.

(** [POST /api/register], with the salt that bcrypt draws and the id that
    the database assigns to the new row. *)
Definition register (salt : string) (new_id : Z) (body : register_body)
    (s : site) : site * (account_error + unit) :=
  match JS.present (rb_name body), JS.present (rb_email body),
        JS.present (rb_password body) with
  | Some name, Some email, Some password =>
      match accounts s !! email with
      | Some _ => (s, inl AlreadyExists)
      | None =>
          let hash := bcrypt_hash password salt in
          let lang := default "Spanish" (JS.present (rb_learning_lang body)) in
          (Site (<[email := Account new_id name hash lang 0]> (accounts s))
                (Db (<[email := User 0 Beginner default_streak
                                  default_last_active default_progress]>
                       (users (store s)))
                    (log (store s))),
           inr tt)
      end
  | _, _, _ => (s, inl MissingFields)
  end.

(** [POST /api/login] at a time. *)
Definition login (time : Z) (email password : option string) (s : site)
  : account_error + login_result :=
  match JS.present email, JS.present password with
  | Some email, Some password =>
      match accounts s !! email with
      | None => inl NoSuchUser
      | Some user =>
          let valid := bcrypt_compare password (acc_password user) in
          if valid
          then inr (LoginResult (jwt_sign (email, acc_id user) time)
                      (acc_name user) email)
          else inl WrongPassword
      end
  | _, _ => inl MissingFields
  end.

(** A request that may change the table: a registration, or one of the
    progress and streak requests. *)
Inductive site_request :=
| Register (salt : string) (new_id : Z) (body : register_body)
| Progress (r : request).

Definition site_serve (q : site_request) (s : site) : site :=
  match q with
  | Register salt new_id body => (register salt new_id body s).1
  | Progress r => Site (accounts s) (serve r (store s)).1
  end.

Definition site_run (qs : list site_request) (s : site) : site :=
  foldl (λ s q, site_serve q s) s qs.

End External.

(** ** The token check *)

(** [s.split(' ')]: the pieces of [s] between single spaces. *)
Fixpoint split_space (s : string) : list string :=
  match s with
  | EmptyString => [EmptyString]
  | String c rest =>
      if bool_decide (c = " "%char) then EmptyString :: split_space rest
      else match split_space rest with
           | piece :: pieces => String c piece :: pieces
           | [] => [String c EmptyString]
           end
  end.

(** The string has a space in it. *)
Fixpoint has_space (s : string) : bool :=
  match s with
  | EmptyString => false
  | String c rest => bool_decide (c = " "%char) || has_space rest
  end.

(** How [authMiddleware] ends without calling [next]: 401 with
    'Authorization header missing', 'Token required' or 'Invalid token'. *)
Inductive auth_error :=
| HeaderMissing
| TokenRequired
| InvalidToken.

(** [authMiddleware] at a time, for the value of the [authorization] header;
    [jwt_verify] is [jwt.verify(token, JWT_SECRET)], with [None] where it
    throws. The result is the payload put into [req.user]. *)
Definition authMiddleware (jwt_verify : string → Z → option (string * Z))
    (time : Z) (authorization : option string)
  : auth_error + (string * Z) :=
  match JS.present authorization with
  | None => inl HeaderMissing
  | Some auth =>
      let token := split_space auth !! 1%nat in
      match JS.present token with
      | None => inl TokenRequired
      | Some token =>
          match jwt_verify token time with
          | Some payload => inr payload
          | None => inl InvalidToken
          end
      end
  end.

(** The table before anyone has registered. *)
Definition no_rows : site := Site ∅ (Db ∅ []).

(** Stand-ins for the external libraries in examples: a hash that is the
    password itself, the comparison that goes with it, and a token that is
    the email of its payload. *)
Definition plain_hash (password salt : string) : string := password.

Definition plain_compare (password hash : string) : bool :=
  bool_decide (password = hash).

Definition plain_sign (payload : string * Z) (time : Z) : string := payload.1.

Definition bo : string := "bo@example.com".

(** A stand-in for [jwt.verify] in examples: it reads the email back from a
    token of [plain_sign] and takes the id to be 1. *)
Definition plain_verify (token : string) (time : Z) : option (string * Z) :=
  Some (token, 1).

(** A table with the one row of [ana]. *)
Definition ana_registered : site :=
  Site {[ ana := Account 1 "Ana" "secret" "Spanish" 0 ]} (one_user registered).

(** ** The streak policies in calendar days *)



(** Half past one at night on day 10 in a process five and a half hours east
    of UTC, with a database that keeps UTC: there it is 20:00 on day 9. *)
Definition night_in_the_east : clock :=
  Clock (9 * MS_PER_DAY + 20 * 3600000) (330 * 60000) 9.


(** ** Proof steps *)

(** Case analysis on membership in a list that is written out. *)
Ltac each_entry H :=
  repeat (apply elem_of_cons in H as [H | H]; [simplify_eq |]);
  [.. | by apply elem_of_nil in H].

(** Unfolds the monad and the database statements of a handler. *)
Ltac run_handler :=
  unfold mbind, handler_bind, mret, handler_ret, fail, select_progress,
    select_user, update_column, update_user; cbn [users log fst snd].

(** * Properties *)

(** ** Language lookup *)

Example getProgressColumn_Spanish :
  getProgressColumn "Spanish" = Some (JS.VString "progress_spanish").
Proof. vm_compute. reflexivity. Qed.

Example getProgressColumn_Klingon : getProgressColumn "Klingon" = None.
Proof. vm_compute. reflexivity. Qed.

Example getProgressColumn_constructor :
  getProgressColumn "constructor" = Some (JS.VFunction "Object").
Proof. vm_compute. reflexivity. Qed.

(** An own key of [LANG_COLUMN_MAP] yields its column, and that column is a
    column of the table. *)
Lemma own_column lang col :
  LANG_COLUMN_MAP !! lang = Some col →
  getProgressColumn lang = Some (JS.VString col) ∧ is_column col = true.
Proof.
  intros H. apply elem_of_list_to_map_2 in H. unfold LANG_COLUMN_ENTRIES in H.
  each_entry H; split; vm_compute; reflexivity.
Qed.

(** A key found only on the prototype passes the [|| null] test, and its
    text is no column. *)
Lemma inherited_column lang v :
  LANG_COLUMN_MAP !! lang = None →
  JS.OBJECT_PROTOTYPE !! lang = Some v →
  getProgressColumn lang = Some v ∧ is_column (JS.template v) = false.
Proof.
  intros Hown H. unfold getProgressColumn, JS.get. rewrite Hown, H.
  apply elem_of_list_to_map_2 in H.
  each_entry H; split; vm_compute; reflexivity.
Qed.

(** Any other key is rejected. *)
Lemma no_column lang :
  LANG_COLUMN_MAP !! lang = None →
  JS.OBJECT_PROTOTYPE !! lang = None →
  getProgressColumn lang = None.
Proof.
  intros Hown H. unfold getProgressColumn, JS.get. by rewrite Hown, H.
Qed.

Lemma or_zero_Some n : JS.or_zero (Some n) = n.
Proof. unfold JS.or_zero. destruct (Z.eqb_spec n 0); congruence. Qed.

Lemma or_zero_default p : JS.or_zero p = default 0 p.
Proof. destruct p; [apply or_zero_Some | reflexivity]. Qed.

Lemma present_Some s : s ≠ "" → JS.present (Some s) = Some s.
Proof. intros H. unfold JS.present. by rewrite bool_decide_false. Qed.

Lemma present_inv o s : JS.present o = Some s → o = Some s ∧ s ≠ "".
Proof.
  unfold JS.present. destruct o as [s'|]; [|done].
  case_bool_decide; [done|]. by intros [= ->].
Qed.

Lemma alter_present {A} (f : A → A) (m : gmap string A) i x :
  m !! i = Some x → alter f i m = <[i := f x]> m.
Proof.
  intros H. apply map_eq. intros j. rewrite lookup_alter, lookup_insert.
  case_decide; [subst; by rewrite H | done].
Qed.

(** ** Level thresholds *)

Lemma submit_level_of e : submit_level e = level_of e.
Proof.
  unfold submit_level, level_of.
  destruct (Z.leb_spec 100 e), (Z.ltb_spec e 300), (Z.leb_spec 300 e),
    (Z.ltb_spec e 600), (Z.leb_spec 600 e), (Z.ltb_spec e 100);
    cbn; try reflexivity; lia.
Qed.

Lemma complete_lesson_level_of e : complete_lesson_level e = level_of e.
Proof. exact (submit_level_of e). Qed.

Lemma level_of_cases e :
  (level_of e = Beginner ↔ e < 100) ∧
  (level_of e = Intermediate ↔ 100 <= e < 300) ∧
  (level_of e = Advanced ↔ 300 <= e < 600) ∧
  (level_of e = Expert ↔ 600 <= e).
Proof.
  unfold level_of.
  destruct (Z.ltb_spec e 100), (Z.ltb_spec e 300), (Z.ltb_spec e 600);
    repeat split; intros; try discriminate; try reflexivity; lia.
Qed.

(** ** What each handler does *)

Lemma empty_not_own : LANG_COLUMN_MAP !! "" = None.
Proof. vm_compute. reflexivity. Qed.

Lemma own_nonempty lang col :
  LANG_COLUMN_MAP !! lang = Some col → lang ≠ "".
Proof. intros H ->. by rewrite empty_not_own in H. Qed.

Lemma get_progress_found d email lang col u :
  LANG_COLUMN_MAP !! lang = Some col →
  users d !! email = Some u →
  get_progress email lang d =
    (Db (users d) (log d ++ [Select email]),
     inr (ProgressView (xp u) (level u) (lessons u col) 10)).
Proof.
  intros Hcol Hu. destruct (own_column _ _ Hcol) as [Hg Hc].
  unfold get_progress. rewrite Hg. run_handler. cbn [JS.template].
  rewrite Hc, Hu. cbn. by rewrite or_zero_default.
Qed.

Lemma get_progress_not_found d email lang col :
  LANG_COLUMN_MAP !! lang = Some col →
  users d !! email = None →
  get_progress email lang d =
    (Db (users d) (log d ++ [Select email]), inl NotFound).
Proof.
  intros Hcol Hu. destruct (own_column _ _ Hcol) as [Hg Hc].
  unfold get_progress. rewrite Hg. run_handler. cbn [JS.template].
  by rewrite Hc, Hu.
Qed.

Lemma get_progress_rejected d email lang :
  getProgressColumn lang = None →
  get_progress email lang d = (d, inl UnsupportedLanguage).
Proof. intros Hg. unfold get_progress. by rewrite Hg. Qed.

Lemma get_progress_inherited d email lang v :
  LANG_COLUMN_MAP !! lang = None →
  JS.OBJECT_PROTOTYPE !! lang = Some v →
  get_progress email lang d = (d, inl StoreFailure).
Proof.
  intros Hown Hv. destruct (inherited_column _ _ Hown Hv) as [Hg Hc].
  unfold get_progress. rewrite Hg. run_handler. by rewrite Hc.
Qed.

Lemma get_progress_users d email lang :
  users (get_progress email lang d).1 = users d.
Proof.
  unfold get_progress. destruct (getProgressColumn lang); [|done].
  run_handler. destruct (is_column _); [|done]. cbn.
  by destruct (users d !! email).
Qed.

Lemma submit_found d email score lang col u :
  email ≠ "" →
  LANG_COLUMN_MAP !! lang = Some col →
  users d !! email = Some u →
  submit (SubmitBody (Some email) (Some score) (Some lang)) d =
    (Db (<[email := submitted u col score]> (users d))
        (log d ++ [Select email; Update email]),
     inr (SubmitResult (xp u + score * 10) (submit_level (xp u + score * 10))
            (lessons u col + 1))).
Proof.
  intros He Hcol Hu. destruct (own_column _ _ Hcol) as [Hg Hc].
  unfold submit. cbn [sb_email sb_score sb_lang].
  rewrite (present_Some email He).
  rewrite (present_Some lang (own_nonempty _ _ Hcol)), Hg.
  run_handler. cbn [JS.template]. rewrite Hc, Hu. cbn.
  rewrite or_zero_Some, or_zero_default, <- app_assoc. cbn.
  by rewrite (alter_present _ _ _ _ Hu).
Qed.

Lemma submit_not_found d email score lang col :
  email ≠ "" →
  LANG_COLUMN_MAP !! lang = Some col →
  users d !! email = None →
  submit (SubmitBody (Some email) (Some score) (Some lang)) d =
    (Db (users d) (log d ++ [Select email]), inl NotFound).
Proof.
  intros He Hcol Hu. destruct (own_column _ _ Hcol) as [Hg Hc].
  unfold submit. cbn [sb_email sb_score sb_lang].
  rewrite (present_Some email He).
  rewrite (present_Some lang (own_nonempty _ _ Hcol)), Hg.
  run_handler. cbn [JS.template]. by rewrite Hc, Hu.
Qed.

Lemma submit_rejected d email score lang :
  email ≠ "" → lang ≠ "" →
  getProgressColumn lang = None →
  submit (SubmitBody (Some email) (Some score) (Some lang)) d =
    (d, inl UnsupportedLanguage).
Proof.
  intros He Hl Hg. unfold submit. cbn [sb_email sb_score sb_lang].
  by rewrite (present_Some email He), (present_Some lang Hl), Hg.
Qed.

Lemma submit_missing_field d body :
  JS.present (sb_email body) = None ∨ sb_score body = None ∨
  JS.present (sb_lang body) = None →
  submit body d = (d, inl InvalidInput).
Proof.
  unfold submit. intros [H | [H | H]]; rewrite H; try done.
  - by destruct (JS.present (sb_email body)).
  - by destruct (JS.present (sb_email body)), (sb_score body).
Qed.

Lemma submit_inherited d email score lang v :
  email ≠ "" →
  LANG_COLUMN_MAP !! lang = None →
  JS.OBJECT_PROTOTYPE !! lang = Some v →
  submit (SubmitBody (Some email) (Some score) (Some lang)) d =
    (d, inl StoreFailure).
Proof.
  intros He Hown Hv. destruct (inherited_column _ _ Hown Hv) as [Hg Hc].
  assert (lang ≠ "") as Hl by (intros ->; vm_compute in Hv; discriminate).
  unfold submit. cbn [sb_email sb_score sb_lang].
  rewrite (present_Some email He), (present_Some lang Hl), Hg.
  run_handler. by rewrite Hc.
Qed.

(** The language argument falls in one of three classes. *)
Lemma lang_classes lang :
  (∃ col, LANG_COLUMN_MAP !! lang = Some col) ∨
  (LANG_COLUMN_MAP !! lang = None ∧
   ∃ v, JS.OBJECT_PROTOTYPE !! lang = Some v) ∨
  (LANG_COLUMN_MAP !! lang = None ∧ JS.OBJECT_PROTOTYPE !! lang = None).
Proof.
  destruct (LANG_COLUMN_MAP !! lang) as [col|]; [eauto|].
  destruct (JS.OBJECT_PROTOTYPE !! lang) as [v|]; eauto.
Qed.

Lemma complete_lesson_found d c email gained lang u :
  email ≠ "" →
  users d !! email = Some u →
  let g := default 20 gained in
  let row := lesson_done c u g in
  let res := LessonResult (xp u + g) (complete_lesson_level (xp u + g))
               (lesson_streak c u) in
  let d1 := Db (<[email := row]> (users d))
               (log d ++ [Select email; Update email]) in
  complete_lesson c (LessonBody (Some email) gained lang) d =
    match JS.present lang ≫= getProgressColumn with
    | Some progressCol =>
        if is_column (JS.template progressCol)
        then (Db (<[email := bump (JS.template progressCol) row]> (users d))
                 (log d ++ [Select email; Update email; Update email]),
              inr res)
        else (d1, inl StoreFailure)
    | None => (d1, inr res)
    end.
Proof.
  intros He Hu g row res d1. unfold complete_lesson.
  cbn [lb_email lb_gainedXP lb_lang]. rewrite (present_Some email He).
  run_handler. rewrite Hu. cbn. rewrite or_zero_Some.
  rewrite (alter_present _ _ _ _ Hu), <- app_assoc. cbn.
  fold g. fold (lesson_done c u g). fold row.
  destruct (JS.present lang) as [l|]; cbn; [|done].
  destruct (getProgressColumn l) as [pc|]; cbn; [|done].
  destruct (is_column (JS.template pc)); [|done].
  cbn. rewrite <- app_assoc. cbn.
  rewrite (alter_present _ _ _ row) by apply lookup_insert_eq.
  by rewrite insert_insert_eq.
Qed.

Lemma complete_lesson_not_found d c email gained lang :
  email ≠ "" →
  users d !! email = None →
  complete_lesson c (LessonBody (Some email) gained lang) d =
    (Db (users d) (log d ++ [Select email]), inl NotFound).
Proof.
  intros He Hu. unfold complete_lesson. cbn [lb_email].
  rewrite (present_Some email He). run_handler. by rewrite Hu.
Qed.

Lemma complete_lesson_missing_email d c body :
  JS.present (lb_email body) = None →
  complete_lesson c body d = (d, inl InvalidInput).
Proof. intros H. unfold complete_lesson. by rewrite H. Qed.

Lemma update_streak_found d c email u :
  email ≠ "" →
  users d !! email = Some u →
  update_streak c (Some email) d =
    (Db (<[email := pinged c u]> (users d))
        (log d ++ [Select email; Update email]),
     inr (ping_streak c u)).
Proof.
  intros He Hu. unfold update_streak. rewrite (present_Some email He).
  run_handler. rewrite Hu. cbn.
  by rewrite (alter_present _ _ _ _ Hu), <- app_assoc.
Qed.

Lemma update_streak_not_found d c email :
  email ≠ "" →
  users d !! email = None →
  update_streak c (Some email) d =
    (Db (users d) (log d ++ [Select email]), inl NotFound).
Proof.
  intros He Hu. unfold update_streak. rewrite (present_Some email He).
  run_handler. by rewrite Hu.
Qed.

Lemma update_streak_missing_email d c email :
  JS.present email = None →
  update_streak c email d = (d, inl InvalidInput).
Proof. intros H. unfold update_streak. by rewrite H. Qed.

(** ** The effect of a request on the table *)

(** A request leaves the table as it is, or replaces the one row it names by
    a row that [row_step] allows. *)
Lemma serve_effect r d :
  users (serve r d).1 = users d ∨
  ∃ email u u',
    request_email r = Some email ∧ users d !! email = Some u ∧
    users (serve r d).1 = <[email := u']> (users d) ∧ row_step r u u'.
Proof.
  destruct r as [email lang | [e s l] | c [e g l] | c e]; cbn [serve fst].
  - left. apply get_progress_users.
  - destruct (JS.present e) as [email|] eqn:He;
      [| left; by rewrite submit_missing_field by (cbn; auto)].
    apply present_inv in He as [-> He].
    destruct s as [score|];
      [| left; by rewrite submit_missing_field by (cbn; auto)].
    destruct (JS.present l) as [lang|] eqn:Hl;
      [| left; by rewrite submit_missing_field by (cbn; auto)].
    apply present_inv in Hl as [-> Hl].
    destruct (lang_classes lang) as [[col Hcol] | [[Hown [v Hv]] | [Hown Hp]]].
    + destruct (users d !! email) as [u|] eqn:Hu.
      * right. exists email, u, (submitted u col score).
        rewrite (submit_found _ _ _ _ _ _ He Hcol Hu). cbn.
        repeat split; try done. by exists score, lang, col.
      * left. by rewrite (submit_not_found _ _ _ _ _ He Hcol Hu).
    + left. by rewrite (submit_inherited _ _ _ _ _ He Hown Hv).
    + left. by rewrite (submit_rejected _ _ _ _ He Hl (no_column _ Hown Hp)).
  - destruct (JS.present e) as [email|] eqn:He;
      [| left; by rewrite complete_lesson_missing_email].
    apply present_inv in He as [-> He].
    destruct (users d !! email) as [u|] eqn:Hu;
      [| left; by rewrite (complete_lesson_not_found _ _ _ _ _ He Hu)].
    right. exists email, u. rewrite (complete_lesson_found _ _ _ _ _ _ He Hu).
    cbn [request_email lb_email row_step lb_gainedXP lb_lang].
    destruct (JS.present l) as [lang|] eqn:Hl; cbn [mbind option_bind];
      [| eexists; repeat split; [done | by left]].
    apply present_inv in Hl as [-> Hl].
    destruct (getProgressColumn lang) as [pc|] eqn:Hpc;
      [| eexists; repeat split; [done | by left]].
    destruct (is_column (JS.template pc)) eqn:Hc;
      [| eexists; repeat split; [done | by left]].
    destruct (lang_classes lang) as [[col Hcol] | [[Hown [v Hv]] | [Hown Hp]]].
    + destruct (own_column _ _ Hcol) as [Hg _]. rewrite Hg in Hpc.
      injection Hpc as <-. eexists. repeat split; [done |].
      right. by exists lang, col.
    + destruct (inherited_column _ _ Hown Hv) as [Hg Hn]. rewrite Hg in Hpc.
      injection Hpc as <-. congruence.
    + rewrite (no_column _ Hown Hp) in Hpc. discriminate.
  - destruct (JS.present e) as [email|] eqn:He;
      [| left; by rewrite update_streak_missing_email].
    apply present_inv in He as [-> He].
    destruct (users d !! email) as [u|] eqn:Hu;
      [| left; by rewrite (update_streak_not_found _ _ _ He Hu)].
    right. exists email, u, (pinged c u).
    by rewrite (update_streak_found _ _ _ _ He Hu).
Qed.

Lemma row_step_in_sync r u u' :
  row_step r u u' →
  level u = level_of (xp u) →
  level u' = level_of (xp u').
Proof.
  destruct r as [email lang | body | c body | c e]; cbn [row_step].
  - done.
  - intros (score & lang & col & _ & _ & _ & ->) _. cbn. apply submit_level_of.
  - intros [-> | (lang & col & _ & _ & ->)] _; cbn;
      apply complete_lesson_level_of.
  - by intros ->.
Qed.

Lemma serve_in_sync r d : in_sync d → in_sync (serve r d).1.
Proof.
  intros Hd. unfold in_sync.
  destruct (serve_effect r d) as [-> | (e & u & u' & _ & Hu & -> & Hs)];
    [done|].
  intros e' v. rewrite lookup_insert. case_decide as Hee.
  - intros [= <-]. apply (row_step_in_sync _ _ _ Hs). by apply (Hd e).
  - apply Hd.
Qed.

Lemma submit_success_inv body d d' res :
  submit body d = (d', inr res) →
  ∃ email score lang col u,
    body = SubmitBody (Some email) (Some score) (Some lang) ∧ email ≠ "" ∧
    LANG_COLUMN_MAP !! lang = Some col ∧ users d !! email = Some u.
Proof.
  destruct body as [e s l].
  destruct (JS.present e) as [email|] eqn:He;
    [| by rewrite submit_missing_field by (cbn; auto)].
  apply present_inv in He as [-> He].
  destruct s as [score|]; [| by rewrite submit_missing_field by (cbn; auto)].
  destruct (JS.present l) as [lang|] eqn:Hl;
    [| by rewrite submit_missing_field by (cbn; auto)].
  apply present_inv in Hl as [-> Hl].
  destruct (lang_classes lang) as [[col Hcol] | [[Hown [v Hv]] | [Hown Hp]]].
  - destruct (users d !! email) as [u|] eqn:Hu.
    + intros _. by exists email, score, lang, col, u.
    + by rewrite (submit_not_found _ _ _ _ _ He Hcol Hu).
  - by rewrite (submit_inherited _ _ _ _ _ He Hown Hv).
  - by rewrite (submit_rejected _ _ _ _ He Hl (no_column _ Hown Hp)).
Qed.

Lemma complete_lesson_success_inv c body d d' res :
  complete_lesson c body d = (d', inr res) →
  ∃ email u,
    body = LessonBody (Some email) (lb_gainedXP body) (lb_lang body) ∧
    email ≠ "" ∧ users d !! email = Some u.
Proof.
  destruct body as [e g l].
  destruct (JS.present e) as [email|] eqn:He;
    [| by rewrite complete_lesson_missing_email].
  apply present_inv in He as [-> He].
  destruct (users d !! email) as [u|] eqn:Hu;
    [| by rewrite (complete_lesson_not_found _ _ _ _ _ He Hu)].
  intros _. by exists email, u.
Qed.

(** Whatever the language argument, the first [UPDATE] of
    [complete-lesson] is in the table afterwards, up to the language's
    counter. *)
Lemma complete_lesson_row d c email gained lang u :
  email ≠ "" →
  users d !! email = Some u →
  ∃ u',
    users (complete_lesson c (LessonBody (Some email) gained lang) d).1
      = <[email := u']> (users d) ∧
    xp u' = xp u + default 20 gained ∧
    level u' = complete_lesson_level (xp u + default 20 gained) ∧
    streak u' = lesson_streak c u ∧
    last_active u' = Some (Date.isoDay (now c)).
Proof.
  intros He Hu. rewrite (complete_lesson_found _ _ _ _ _ _ He Hu).
  destruct (JS.present lang ≫= getProgressColumn) as [pc|];
    [destruct (is_column (JS.template pc))|]; eexists; (split; [done|]); done.
Qed.

(** * Properties of the specification *)

(** C1. The level of an experience value [e] is Beginner iff [e < 100],
    Intermediate iff [100 <= e < 300], Advanced iff [300 <= e < 600] and
    Expert iff [600 <= e] (for every integer, so for every non-negative one),
    the boundary values 99, 100, 299, 300, 599 and 600 included; the level
    chains of [submit] and [complete_lesson] are this function, and each
    handler stores the level of the new experience value. *)
Theorem level_thresholds :
  (∀ e, (level_of e = Beginner ↔ e < 100) ∧
        (level_of e = Intermediate ↔ 100 <= e < 300) ∧
        (level_of e = Advanced ↔ 300 <= e < 600) ∧
        (level_of e = Expert ↔ 600 <= e)) ∧
  level_of <$> [99; 100; 299; 300; 599; 600]
    = [Beginner; Intermediate; Intermediate; Advanced; Advanced; Expert] ∧
  (∀ currentXP, submit_level currentXP = level_of currentXP) ∧
  (∀ newXP, complete_lesson_level newXP = level_of newXP) ∧
  (∀ d email score lang col u,
     email ≠ "" → LANG_COLUMN_MAP !! lang = Some col →
     users d !! email = Some u →
     ∃ d' res u',
       submit (SubmitBody (Some email) (Some score) (Some lang)) d
         = (d', inr res) ∧
       users d' !! email = Some u' ∧
       xp u' = xp u + score * 10 ∧
       level u' = level_of (xp u + score * 10) ∧
       sr_level res = level_of (xp u + score * 10)) ∧
  (∀ d c email gained lang u,
     email ≠ "" → users d !! email = Some u →
     ∃ u',
       users (complete_lesson c (LessonBody (Some email) gained lang) d).1
         !! email = Some u' ∧
       xp u' = xp u + default 20 gained ∧
       level u' = level_of (xp u + default 20 gained) ∧
       ∀ res,
         (complete_lesson c (LessonBody (Some email) gained lang) d).2
           = inr res →
         lr_level res = level_of (xp u + default 20 gained)).
Proof.
  split; [exact level_of_cases|].
  split; [reflexivity|].
  split; [exact submit_level_of|].
  split; [exact complete_lesson_level_of|].
  split.
  - intros d email score lang col u He Hcol Hu.
    eexists _, _, (submitted u col score).
    split; [exact (submit_found _ _ _ _ _ _ He Hcol Hu)|].
    cbn. rewrite lookup_insert_eq, submit_level_of. done.
  - intros d c email gained lang u He Hu.
    destruct (complete_lesson_row d c email gained lang u He Hu)
      as (u' & Hd & Hxp & Hlv & _).
    exists u'. rewrite Hd, lookup_insert_eq, Hxp, Hlv, complete_lesson_level_of.
    repeat split; try done.
    intros res. rewrite (complete_lesson_found _ _ _ _ _ _ He Hu).
    rewrite <- complete_lesson_level_of.
    destruct (JS.present lang ≫= getProgressColumn) as [pc|];
      [destruct (is_column (JS.template pc))|]; cbn; by intros [= <-].
Qed.

Lemma level_thresholds_witness :
  ∃ d' res u',
    submit (SubmitBody (Some ana) (Some 10) (Some "Spanish"))
      (one_user registered) = (d', inr res) ∧
    users d' !! ana = Some u' ∧
    xp u' = xp registered + 10 * 10 ∧
    level u' = level_of (xp registered + 10 * 10) ∧
    sr_level res = level_of (xp registered + 10 * 10).
Proof.
  apply (proj1 (proj2 (proj2 (proj2 (proj2 level_thresholds))))
           (one_user registered) ana 10 "Spanish" "progress_spanish"
           registered).
  - done.
  - vm_compute. reflexivity.
  - apply lookup_singleton_eq.
Defined.

(** C2. When [submit] or [complete_lesson] completes successfully, the stored
    level of the row it wrote is the level of the stored experience; and no
    request, however it ends, takes a table in which every row has this
    property to one in which some row lacks it. *)
Theorem level_in_sync_after_mutation :
  (∀ body d d' res,
     submit body d = (d', inr res) →
     ∃ email u',
       sb_email body = Some email ∧ users d' !! email = Some u' ∧
       level u' = level_of (xp u')) ∧
  (∀ c body d d' res,
     complete_lesson c body d = (d', inr res) →
     ∃ email u',
       lb_email body = Some email ∧ users d' !! email = Some u' ∧
       level u' = level_of (xp u')) ∧
  (∀ r d, in_sync d → in_sync (serve r d).1).
Proof.
  split; [|split].
  - intros body d d' res H.
    destruct (submit_success_inv _ _ _ _ H)
      as (email & score & lang & col & u & -> & He & Hcol & Hu).
    rewrite (submit_found _ _ _ _ _ _ He Hcol Hu) in H.
    injection H as <- _. exists email, (submitted u col score).
    cbn. rewrite lookup_insert_eq, submit_level_of. done.
  - intros c body d d' res H.
    destruct (complete_lesson_success_inv _ _ _ _ _ H)
      as (email & u & Hb & He & Hu).
    destruct (complete_lesson_row d c email (lb_gainedXP body) (lb_lang body)
                u He Hu) as (u' & Hd & Hxp & Hlv & _).
    rewrite <- Hb, H in Hd. cbn in Hd. exists email, u'.
    rewrite Hb, Hd, lookup_insert_eq, Hlv, Hxp, complete_lesson_level_of. done.
  - exact serve_in_sync.
Qed.

Lemma level_in_sync_after_mutation_witness :
  ∃ email u',
    Some ana = Some email ∧
    users (submit (SubmitBody (Some ana) (Some 10) (Some "Spanish"))
             (one_user registered)).1 !! email = Some u' ∧
    level u' = level_of (xp u').
Proof.
  pose proof (submit_found (one_user registered) ana 10 "Spanish"
                "progress_spanish" registered ltac:(done)
                ltac:(vm_compute; reflexivity)
                ltac:(apply lookup_singleton_eq)) as H.
  rewrite H.
  exact (proj1 level_in_sync_after_mutation _ _ _ _ H).
Defined.

(** C3. For an existing user, a supported language and a non-negative score,
    [submit] adds [score * 10] to the experience, adds 1 to the counter of
    that language (a missing counter counting as 0), stores the level of the
    new experience, and returns the new experience, level and counter; it
    does so with one read and one write, and the streak, the last-active
    date, the other counters and the other rows stay as they were. *)
Theorem submit_quiz_result_effect d email score lang u :
  email ≠ "" →
  supported lang →
  users d !! email = Some u →
  0 <= score →
  ∃ col d' res u',
    LANG_COLUMN_MAP !! lang = Some col ∧
    submit (SubmitBody (Some email) (Some score) (Some lang)) d
      = (d', inr res) ∧
    log d' = (log d ++ [Select email; Update email])%list ∧
    users d' !! email = Some u' ∧
    xp u' = xp u + score * 10 ∧
    lessons u' col = lessons u col + 1 ∧
    level u' = level_of (xp u') ∧
    sr_xp res = xp u' ∧
    sr_level res = level u' ∧
    sr_lessonsCompleted res = lessons u' col ∧
    streak u' = streak u ∧
    last_active u' = last_active u ∧
    (∀ col', col' ≠ col → progress u' !! col' = progress u !! col') ∧
    (∀ email', email' ≠ email → users d' !! email' = users d !! email').
Proof.
  intros He [col Hcol] Hu _.
  exists col. eexists _, _, (submitted u col score).
  split; [done|].
  split; [exact (submit_found _ _ _ _ _ _ He Hcol Hu)|].
  assert (lessons (submitted u col score) col = lessons u col + 1) as Hl
    by (unfold lessons at 1; cbn; by rewrite lookup_insert_eq).
  rewrite Hl. cbn. rewrite lookup_insert_eq, submit_level_of.
  repeat split; try done.
  - intros col' Hne. by rewrite lookup_insert_ne.
  - intros email' Hne. by rewrite lookup_insert_ne.
Qed.

Lemma submit_quiz_result_effect_witness :
  ∃ col d' res u',
    LANG_COLUMN_MAP !! "Spanish" = Some col ∧
    submit (SubmitBody (Some ana) (Some 10) (Some "Spanish"))
      (one_user registered) = (d', inr res) ∧
    log d' = (log (one_user registered) ++ [Select ana; Update ana])%list ∧
    users d' !! ana = Some u' ∧
    xp u' = xp registered + 10 * 10 ∧
    lessons u' col = lessons registered col + 1 ∧
    level u' = level_of (xp u') ∧
    sr_xp res = xp u' ∧
    sr_level res = level u' ∧
    sr_lessonsCompleted res = lessons u' col ∧
    streak u' = streak registered ∧
    last_active u' = last_active registered ∧
    (∀ col', col' ≠ col →
       progress u' !! col' = progress registered !! col') ∧
    (∀ email', email' ≠ ana →
       users d' !! email' = users (one_user registered) !! email').
Proof.
  apply (submit_quiz_result_effect (one_user registered) ana 10 "Spanish"
           registered).
  - done.
  - exists "progress_spanish". vm_compute. reflexivity.
  - apply lookup_singleton_eq.
  - lia.
Defined.

(** The walk of the specification: from experience 0, a Spanish quiz with
    score 10 gives 100, Intermediate, 1 lesson; a second with score 25 gives
    350, Advanced, 2 lessons. *)
Example submit_twice :
  let d0 := one_user registered in
  let r1 := submit (SubmitBody (Some ana) (Some 10) (Some "Spanish")) d0 in
  let r2 := submit (SubmitBody (Some ana) (Some 25) (Some "Spanish")) r1.1 in
  r1.2 = inr (SubmitResult 100 Intermediate 1) ∧
  r2.2 = inr (SubmitResult 350 Advanced 2).
Proof. vm_compute. split; reflexivity. Qed.

(** C9. For an existing user and a supported language, [get_progress]
    returns the stored experience and level, the stored counter of that
    language (0 when the counter is missing or zero) and 10 as the total,
    and leaves the table as it is. *)
Theorem get_progress_view d email lang u :
  supported lang →
  users d !! email = Some u →
  ∃ col res,
    LANG_COLUMN_MAP !! lang = Some col ∧
    get_progress email lang d
      = (Db (users d) (log d ++ [Select email]), inr res) ∧
    pv_xp res = xp u ∧
    pv_level res = level u ∧
    (∀ n, progress u !! col = Some n → pv_lessonsCompleted res = n) ∧
    (progress u !! col = None → pv_lessonsCompleted res = 0) ∧
    pv_totalLessons res = 10.
Proof.
  intros [col Hcol] Hu. exists col. eexists.
  split; [done|].
  split; [exact (get_progress_found _ _ _ _ _ Hcol Hu)|].
  cbn. unfold lessons. repeat split; try done.
  - by intros n ->.
  - by intros ->.
Qed.

Lemma get_progress_view_witness :
  ∃ col res,
    LANG_COLUMN_MAP !! "French" = Some col ∧
    get_progress ana "French" (one_user registered)
      = (Db (users (one_user registered))
            (log (one_user registered) ++ [Select ana]), inr res) ∧
    pv_xp res = xp registered ∧
    pv_level res = level registered ∧
    (∀ n, progress registered !! col = Some n →
          pv_lessonsCompleted res = n) ∧
    (progress registered !! col = None → pv_lessonsCompleted res = 0) ∧
    pv_totalLessons res = 10.
Proof.
  apply (get_progress_view (one_user registered) ana "French" registered).
  - exists "progress_french". vm_compute. reflexivity.
  - apply lookup_singleton_eq.
Defined.

(** ** Dates *)

Lemma toDateString_ofColumn c day :
  Date.toDateString c (Date.ofColumn c day) = day.
Proof.
  unfold Date.toDateString, Date.ofColumn.
  replace (day * MS_PER_DAY - tz c + tz c) with (day * MS_PER_DAY) by lia.
  apply Z.div_mul. discriminate.
Qed.

Lemma toDateString_dayBefore c t :
  Date.toDateString c (Date.dayBefore t) = Date.toDateString c t - 1.
Proof.
  unfold Date.toDateString, Date.dayBefore.
  replace (t - MS_PER_DAY + tz c) with (t + tz c + (-1) * MS_PER_DAY) by lia.
  rewrite Z.div_add by discriminate. lia.
Qed.

(** The streak of [update-streak] in calendar days. *)
Lemma ping_streak_calendar c u :
  let today := Date.toDateString c (now c) in
  ping_streak c u =
    match last_active u with
    | None => 1
    | Some day =>
        if day =? today - 1 then streak u + 1
        else if negb (day =? today) then 1
        else streak u
    end.
Proof.
  unfold ping_streak. destruct (last_active u) as [day|]; [|done].
  cbn zeta.
  by rewrite toDateString_ofColumn, toDateString_dayBefore, or_zero_Some.
Qed.

(** The day difference of [complete-lesson] in calendar days: the local
    offset of the stored midnight shifts it. *)
Lemma diffDays_calendar c day :
  diffDays c day = Date.isoDay (now c) - day + tz c / MS_PER_DAY.
Proof.
  unfold diffDays, Date.ofIsoDay, Date.ofColumn. cbn zeta.
  replace (Date.isoDay (now c) * MS_PER_DAY - (day * MS_PER_DAY - tz c))
    with ((Date.isoDay (now c) - day) * MS_PER_DAY + tz c) by lia.
  apply Z.div_add_l. discriminate.
Qed.




(** On that night every ping adds 1: the database's day 9 is stored, and
    it is yesterday for the process each time. *)
Example ping_three_times_two_dates :
  let r1 := update_streak night_in_the_east (Some ana) (one_user registered) in
  let r2 := update_streak night_in_the_east (Some ana) r1.1 in
  let r3 := update_streak night_in_the_east (Some ana) r2.1 in
  r1.2 = inr 1 ∧ r2.2 = inr 2 ∧ r3.2 = inr 3 ∧
  stored_last_active r3.1 ana = Some 9.
Proof. vm_compute. repeat split; reflexivity. Qed.

(** The walk of the specification: a first ping gives streak 1 and stores
    today; a ping the next day gives 2; a ping after two skipped days
    gives 1. *)
Example ping_three_times :
  let r1 := update_streak (noon 7) (Some ana) (one_user registered) in
  let r2 := update_streak (noon 8) (Some ana) r1.1 in
  let r3 := update_streak (noon 11) (Some ana) r2.1 in
  r1.2 = inr 1 ∧ stored_last_active r1.1 ana = Some 7 ∧
  r2.2 = inr 2 ∧ r3.2 = inr 1.
Proof. vm_compute. repeat split; reflexivity. Qed.





(** Policy B on the sample row: active on day 6, a lesson on day 7 makes the
    streak 4; on day 9 it makes it 1; on day 6 again it stays 3. *)
Example lesson_streak_days :
  lesson_streak (noon 7) active = 4 ∧
  lesson_streak (noon 9) active = 1 ∧
  lesson_streak (noon 6) active = 3 ∧
  lesson_streak (noon 7) registered = 1.
Proof. vm_compute. repeat split; reflexivity. Qed.

(** West of UTC the stored midnight lies after midnight UTC, and the day
    difference of [complete-lesson] is one less than the calendar
    difference: a lesson the day after the last activity leaves the streak
    as it was, where [update-streak] would add 1. *)
Example policies_differ_west_of_utc :
  let c := Clock (7 * MS_PER_DAY + MS_PER_DAY / 2) (- 5 * 60 * 60 * 1000) 7 in
  diffDays c 6 = 0 ∧ lesson_streak c active = 3 ∧ ping_streak c active = 4.
Proof. vm_compute. repeat split; reflexivity. Qed.

(** ** The language argument of complete-lesson *)

(** Without a language, or with one that [getProgressColumn] rejects, the
    call succeeds after one [UPDATE] and no counter changes. *)
Lemma complete_lesson_without_counter d c email gained lang u :
  email ≠ "" →
  users d !! email = Some u →
  JS.present lang ≫= getProgressColumn = None →
  let g := default 20 gained in
  complete_lesson c (LessonBody (Some email) gained lang) d =
    (Db (<[email := lesson_done c u g]> (users d))
        (log d ++ [Select email; Update email]),
     inr (LessonResult (xp u + g) (complete_lesson_level (xp u + g))
            (lesson_streak c u))) ∧
  progress (lesson_done c u g) = progress u.
Proof.
  intros He Hu Hl g. rewrite (complete_lesson_found _ _ _ _ _ _ He Hu), Hl.
  done.
Qed.

(** With a supported language the call succeeds after a second [UPDATE] that
    adds 1 to that language's counter when the counter is not NULL. *)
Lemma complete_lesson_with_counter d c email gained lang col u :
  email ≠ "" →
  users d !! email = Some u →
  LANG_COLUMN_MAP !! lang = Some col →
  let g := default 20 gained in
  let u' := bump col (lesson_done c u g) in
  complete_lesson c (LessonBody (Some email) gained (Some lang)) d =
    (Db (<[email := u']> (users d))
        (log d ++ [Select email; Update email; Update email]),
     inr (LessonResult (xp u + g) (complete_lesson_level (xp u + g))
            (lesson_streak c u))) ∧
  (∀ n, progress u !! col = Some n → progress u' !! col = Some (n + 1)) ∧
  (progress u !! col = None → progress u' !! col = None) ∧
  (∀ col', col' ≠ col → progress u' !! col' = progress u !! col').
Proof.
  intros He Hu Hcol g u'. destruct (own_column _ _ Hcol) as [Hg Hc].
  rewrite (complete_lesson_found _ _ _ _ _ _ He Hu).
  rewrite (present_Some lang (own_nonempty _ _ Hcol)). cbn [mbind option_bind].
  rewrite Hg. cbn [JS.template]. rewrite Hc.
  split; [done|]. subst u'. cbn. repeat split.
  - intros n Hn. by rewrite lookup_alter_eq, Hn.
  - intros Hn. by rewrite lookup_alter_eq, Hn.
  - intros col' Hne. by rewrite lookup_alter_ne.
Qed.

(** C6, at the input where the code departs from it. A language that is no
    own key of [LANG_COLUMN_MAP] but a member inherited from
    [Object.prototype] passes the [if (progressCol)] test; the second
    [UPDATE] is then rejected, and the call ends in the [catch] block with
    500 although experience, level, streak and last-active date have been
    written. *)
Theorem complete_lesson_inherited_language_fails d c email gained lang v u :
  email ≠ "" →
  users d !! email = Some u →
  LANG_COLUMN_MAP !! lang = None →
  JS.OBJECT_PROTOTYPE !! lang = Some v →
  ¬ supported lang ∧
  complete_lesson c (LessonBody (Some email) gained (Some lang)) d =
    (Db (<[email := lesson_done c u (default 20 gained)]> (users d))
        (log d ++ [Select email; Update email]),
     inl StoreFailure).
Proof.
  intros He Hu Hown Hv. destruct (inherited_column _ _ Hown Hv) as [Hg Hc].
  split.
  - unfold supported. rewrite Hown. by intros [? ?].
  - assert (lang ≠ "") as Hl by (intros ->; vm_compute in Hv; discriminate).
    rewrite (complete_lesson_found _ _ _ _ _ _ He Hu).
    rewrite (present_Some lang Hl). cbn [mbind option_bind].
    by rewrite Hg, Hc.
Qed.

Lemma complete_lesson_inherited_language_fails_witness :
  ¬ supported "constructor" ∧
  complete_lesson (noon 7) (LessonBody (Some ana) None (Some "constructor"))
    (one_user registered) =
    (Db (<[ana := lesson_done (noon 7) registered (default 20 None)]>
           (users (one_user registered)))
        (log (one_user registered) ++ [Select ana; Update ana]),
     inl StoreFailure).
Proof.
  apply (complete_lesson_inherited_language_fails (one_user registered)
           (noon 7) ana None "constructor" (JS.VFunction "Object") registered).
  - done.
  - apply lookup_singleton_eq.
  - vm_compute. reflexivity.
  - vm_compute. reflexivity.
Defined.

(** The same input, evaluated: the caller is told the lesson failed, and the
    row has 20 points and a streak of 1. *)
Example complete_lesson_constructor :
  let r := serve (CompleteLesson (noon 7)
                    (LessonBody (Some ana) None (Some "constructor")))
             (one_user registered) in
  r.2 = Some StoreFailure ∧
  users r.1 !! ana
    = Some (User 20 Beginner 1 (Some 7) (progress registered)).
Proof. vm_compute. split; reflexivity. Qed.

(** ** The last-active date over a run *)

Lemma date_le_refl a : date_le a a.
Proof. destruct a; cbn; [lia | done]. Qed.

Lemma row_step_last_active r u u' :
  row_step r u u' →
  last_active u' = last_active u ∨
  ∃ w, written_date r = Some w ∧ last_active u' = Some w.
Proof.
  destruct r as [email lang | body | c body | c e]; cbn [row_step written_date].
  - done.
  - intros (score & lang & col & _ & _ & _ & ->). by left.
  - intros [-> | (lang & col & _ & _ & ->)]; right; by eexists.
  - intros ->. right. by eexists.
Qed.

(** A request leaves a stored date as it was or replaces it by its own. *)
Lemma serve_last_active r d email :
  stored_last_active (serve r d).1 email = stored_last_active d email ∨
  ∃ w, written_date r = Some w ∧
       stored_last_active (serve r d).1 email = Some w.
Proof.
  unfold stored_last_active.
  destruct (serve_effect r d) as [-> | (e & u & u' & _ & Hu & -> & Hs)];
    [by left|].
  destruct (decide (e = email)) as [-> | Hne].
  - rewrite lookup_insert_eq, Hu. cbn. apply (row_step_last_active _ _ _ Hs).
  - left. by rewrite lookup_insert_ne.
Qed.

Lemma serve_forward r d email :
  (∀ w day, written_date r = Some w →
            stored_last_active d email = Some day → day <= w) →
  date_le (stored_last_active d email) (stored_last_active (serve r d).1 email).
Proof.
  intros H. destruct (serve_last_active r d email) as [-> | (w & Hw & ->)].
  - apply date_le_refl.
  - destruct (stored_last_active d email) as [day|] eqn:Hday; cbn; [|done].
    by apply H.
Qed.

(** C7, as the code has it. Over every run of requests in which each request
    carries a date that is not earlier than the date stored when it arrives,
    the stored last-active date of a user only moves forward or is set from
    absent. ([update-streak] and [complete-lesson] store their own date
    whatever the stored one is.) *)
Theorem last_active_moves_forward rs d email :
  dates_not_earlier d email rs → moves_forward d email rs.
Proof.
  revert d. induction rs as [|r rs IH]; intros d; cbn; [done|].
  intros [Hr Hrs]. split; [by apply serve_forward | by apply IH].
Qed.

Lemma last_active_moves_forward_witness :
  moves_forward (one_user registered) ana
    [UpdateStreak (noon 7) (Some ana);
     CompleteLesson (noon 8) (LessonBody (Some ana) None (Some "Hindi"));
     SubmitQuiz (SubmitBody (Some ana) (Some 3) (Some "Hindi"))].
Proof.
  apply (last_active_moves_forward
           [UpdateStreak (noon 7) (Some ana);
            CompleteLesson (noon 8) (LessonBody (Some ana) None (Some "Hindi"));
            SubmitQuiz (SubmitBody (Some ana) (Some 3) (Some "Hindi"))]
           (one_user registered) ana).
  cbn [dates_not_earlier]. repeat split.
  - intros w day Hw Hday. vm_compute in Hday. discriminate.
  - intros w day Hw Hday. vm_compute in Hw, Hday. simplify_eq. lia.
  - intros w day Hw Hday. vm_compute in Hw. discriminate.
Defined.

(** C7 as stated fails: a row whose stored date is day 10 is pinged on day 5,
    and the stored date goes back to day 5. *)
Lemma last_active_can_move_back :
  ¬ (∀ rs d email, moves_forward d email rs).
Proof.
  intros H.
  specialize (H [UpdateStreak (noon 5) (Some ana)]
                (one_user (User 0 Beginner 1 (Some 10) ∅)) ana).
  destruct H as [H _]. vm_compute in H. by apply H.
Qed.

(** The stored date also goes back without a stored date in the future:
    east of UTC, shortly after local midnight, [update-streak] stores the
    database's date (day 10) and a [complete-lesson] one minute later stores
    the UTC date (day 9). *)
Example last_active_back_across_policies :
  let t := 9 * MS_PER_DAY + 20 * 60 * 60 * 1000 in
  let east := 330 * 60 * 1000 in
  let r1 := serve (UpdateStreak (Clock t east 10) (Some ana))
              (one_user registered) in
  let r2 := serve (CompleteLesson (Clock (t + 60000) east 10)
                     (LessonBody (Some ana) None None)) r1.1 in
  Date.toDateString (Clock t east 10) t = 10 ∧
  stored_last_active r1.1 ana = Some 10 ∧
  stored_last_active r2.1 ana = Some 9.
Proof. vm_compute. repeat split; reflexivity. Qed.

(** ** Requests for a user that does not exist *)

Lemma serve_missing_user r d :
  (∀ email, request_email r = Some email → users d !! email = None) →
  users (serve r d).1 = users d.
Proof.
  intros H. destruct (serve_effect r d) as [Heq | (e & u & u' & He & Hu & _)];
    [done|].
  rewrite (H e He) in Hu. discriminate.
Qed.

(** C8, as the code has it. For a user that does not exist, each operation
    fails with NotFound once its earlier checks have passed: the required
    fields are there and, for [submit] and [get_progress], the language is
    supported. And a request for a user that does not exist, however it
    fails, leaves every row of the table as it was. *)
Theorem missing_user_not_found d email :
  email ≠ "" →
  users d !! email = None →
  let looked_up := Db (users d) (log d ++ [Select email]) in
  (∀ score lang,
     supported lang →
     submit (SubmitBody (Some email) (Some score) (Some lang)) d
       = (looked_up, inl NotFound)) ∧
  (∀ c gained lang,
     complete_lesson c (LessonBody (Some email) gained lang) d
       = (looked_up, inl NotFound)) ∧
  (∀ c, update_streak c (Some email) d = (looked_up, inl NotFound)) ∧
  (∀ lang,
     supported lang →
     get_progress email lang d = (looked_up, inl NotFound)) ∧
  (∀ r, request_email r = Some email → users (serve r d).1 = users d).
Proof.
  intros He Hu looked_up. repeat split.
  - intros score lang [col Hcol]. by apply (submit_not_found _ _ _ _ col).
  - intros c gained lang. by apply complete_lesson_not_found.
  - intros c. by apply update_streak_not_found.
  - intros lang [col Hcol]. by apply (get_progress_not_found _ _ _ col).
  - intros r Hr. apply serve_missing_user. intros e He'. congruence.
Qed.

Lemma missing_user_not_found_witness :
  let d := one_user registered in
  let email := "ghost@example.com" in
  let looked_up := Db (users d) (log d ++ [Select email]) in
  (∀ score lang,
     supported lang →
     submit (SubmitBody (Some email) (Some score) (Some lang)) d
       = (looked_up, inl NotFound)) ∧
  (∀ c gained lang,
     complete_lesson c (LessonBody (Some email) gained lang) d
       = (looked_up, inl NotFound)) ∧
  (∀ c, update_streak c (Some email) d = (looked_up, inl NotFound)) ∧
  (∀ lang,
     supported lang →
     get_progress email lang d = (looked_up, inl NotFound)) ∧
  (∀ r, request_email r = Some email → users (serve r d).1 = users d).
Proof.
  apply (missing_user_not_found (one_user registered) "ghost@example.com").
  - done.
  - vm_compute. reflexivity.
Defined.

(** C8 as stated fails: a quiz in an unsupported language for a user that
    does not exist ends with UnsupportedLanguage, not NotFound. *)
Lemma missing_user_other_error :
  ¬ (∀ r d email,
       request_email r = Some email → users d !! email = None →
       (serve r d).2 = Some NotFound).
Proof.
  intros H.
  specialize (H (SubmitQuiz (SubmitBody (Some "ghost@example.com") (Some 5)
                               (Some "Klingon")))
                (one_user registered) "ghost@example.com"
                eq_refl ltac:(vm_compute; reflexivity)).
  vm_compute in H. discriminate.
Qed.

(** ** Languages that are not supported *)

(** C10, as the code has it. In [get_progress], and in [submit] once email,
    score and lang are there, a language that is neither supported nor the
    name of a member inherited from [Object.prototype] ends the request with
    UnsupportedLanguage, whether the user exists or not, and no statement
    reaches the database. *)
Theorem unsupported_language_first d email lang :
  LANG_COLUMN_MAP !! lang = None →
  JS.OBJECT_PROTOTYPE !! lang = None →
  get_progress email lang d = (d, inl UnsupportedLanguage) ∧
  (∀ score,
     email ≠ "" → lang ≠ "" →
     submit (SubmitBody (Some email) (Some score) (Some lang)) d
       = (d, inl UnsupportedLanguage)).
Proof.
  intros Hown Hp. pose proof (no_column _ Hown Hp) as Hg. split.
  - by apply get_progress_rejected.
  - intros score He Hl. by apply submit_rejected.
Qed.

Lemma unsupported_language_first_witness :
  get_progress "ghost@example.com" "Klingon" (one_user registered)
    = (one_user registered, inl UnsupportedLanguage) ∧
  (∀ score,
     "ghost@example.com" ≠ "" → "Klingon" ≠ "" →
     submit (SubmitBody (Some "ghost@example.com") (Some score)
               (Some "Klingon")) (one_user registered)
       = (one_user registered, inl UnsupportedLanguage)).
Proof.
  apply (unsupported_language_first (one_user registered)
           "ghost@example.com" "Klingon").
  - vm_compute. reflexivity.
  - vm_compute. reflexivity.
Defined.

(** C10 as stated fails: a quiz in an unsupported language without an email
    ends with InvalidInput, the check of the required fields coming first. *)
Lemma unsupported_language_after_required_fields :
  ¬ (∀ body d lang,
       sb_lang body = Some lang → ¬ supported lang →
       submit body d = (d, inl UnsupportedLanguage)).
Proof.
  intros H.
  specialize (H (SubmitBody None (Some 5) (Some "Klingon"))
                (one_user registered) "Klingon" eq_refl).
  assert (¬ supported "Klingon") as Hk
    by (unfold supported; vm_compute; by intros [? ?]).
  specialize (H Hk). vm_compute in H. discriminate.
Qed.

(** An inherited name in [get_progress] and [submit]: the request passes the
    language check and ends in the [catch] block. *)
Example inherited_language_500 :
  (serve (GetProgress ana "constructor") (one_user registered)).2
    = Some StoreFailure ∧
  (serve (SubmitQuiz (SubmitBody (Some ana) (Some 5) (Some "toString")))
     (one_user registered)).2 = Some StoreFailure.
Proof. vm_compute. split; reflexivity. Qed.


(** * Further properties of the handlers *)

(** ** Levels *)

Lemma level_rank_le e e' :
  e <= e' → level_rank (level_of e) <= level_rank (level_of e').
Proof.
  intros H. unfold level_of.
  destruct (Z.ltb_spec e 100), (Z.ltb_spec e 300), (Z.ltb_spec e 600),
    (Z.ltb_spec e' 100), (Z.ltb_spec e' 300), (Z.ltb_spec e' 600);
    cbn; lia.
Qed.

(** X1. The level never goes down when the experience goes up: the ladder
    Beginner, Intermediate, Advanced, Expert is climbed in this order. *)
Theorem level_of_monotone e e' :
  e <= e' → level_rank (level_of e) <= level_rank (level_of e').
Proof. apply level_rank_le. Qed.

Lemma level_of_monotone_witness :
  level_rank (level_of 250) <= level_rank (level_of 300).
Proof. apply (level_of_monotone 250 300). lia. Defined.

(** ** Rows that a request does not name *)

Lemma serve_other_row r d email :
  request_email r ≠ Some email →
  users (serve r d).1 !! email = users d !! email.
Proof.
  intros Hne.
  destruct (serve_effect r d) as [-> | (e & u & u' & He & _ & -> & _)];
    [done|].
  apply lookup_insert_ne. congruence.
Qed.

Lemma serve_dom r d : dom (users (serve r d).1) = dom (users d).
Proof.
  destruct (serve_effect r d) as [-> | (e & u & u' & _ & Hu & -> & _)];
    [done|].
  rewrite dom_insert_L. apply elem_of_dom_2 in Hu.
  apply subseteq_union_1_L. by apply singleton_subseteq_l.
Qed.

Lemma run_snoc rs r d : run (rs ++ [r]) d = (serve r (run rs d)).1.
Proof. unfold run. by rewrite foldl_app. Qed.

(** X2. Over every run of requests, the row of an email that no request of
    the run names stays exactly as it was. *)
Theorem run_keeps_other_rows rs d email :
  (∀ r, r ∈ rs → request_email r ≠ Some email) →
  users (run rs d) !! email = users d !! email.
Proof.
  induction rs as [|r rs IH] using rev_ind; intros H; [done|].
  rewrite run_snoc, serve_other_row by (apply H; set_solver).
  apply IH. intros r' Hr'. apply H. set_solver.
Qed.

Lemma run_keeps_other_rows_witness :
  users (run [SubmitQuiz (SubmitBody (Some ana) (Some 3) (Some "Hindi"));
              UpdateStreak (noon 7) (Some ana)]
           (Db (<["bo@example.com" := active]> {[ ana := registered ]}) []))
    !! "bo@example.com"
  = users (Db (<["bo@example.com" := active]> {[ ana := registered ]}) [])
      !! "bo@example.com".
Proof.
  apply (run_keeps_other_rows
           [SubmitQuiz (SubmitBody (Some ana) (Some 3) (Some "Hindi"));
            UpdateStreak (noon 7) (Some ana)]
           (Db (<["bo@example.com" := active]> {[ ana := registered ]}) [])
           "bo@example.com").
  intros r Hr. apply elem_of_cons in Hr as [Hr | Hr];
    [subst r; vm_compute; discriminate|].
  apply elem_of_cons in Hr as [Hr | Hr];
    [subst r; vm_compute; discriminate|].
  by apply elem_of_nil in Hr.
Defined.

(** X3. No run of these requests adds a row to the table or removes one:
    the set of stored emails is the same before and after. *)
Theorem run_keeps_emails rs d : dom (users (run rs d)) = dom (users d).
Proof.
  induction rs as [|r rs IH] using rev_ind; [done|].
  by rewrite run_snoc, serve_dom.
Qed.

(** ** Relations between a row before and after *)

Section RowRelation.

Variable allowed : request → Prop.
Variable R : user → user → Prop.
Hypothesis R_refl : ∀ u, R u u.
Hypothesis R_trans : ∀ u v w, R u v → R v w → R u w.
Hypothesis R_step : ∀ r u u', allowed r → row_step r u u' → R u u'.

Lemma serve_related r d email u :
  allowed r →
  users d !! email = Some u →
  ∃ u', users (serve r d).1 !! email = Some u' ∧ R u u'.
Proof.
  intros Hr Hu.
  destruct (serve_effect r d) as [-> | (e & v & v' & _ & Hv & -> & Hs)];
    [by exists u|].
  destruct (decide (e = email)) as [-> | Hne].
  - rewrite lookup_insert_eq. exists v'. split; [done|].
    rewrite Hu in Hv. injection Hv as ->. by apply (R_step r).
  - rewrite lookup_insert_ne by done. by exists u.
Qed.

Lemma run_related rs d email u :
  (∀ r, r ∈ rs → allowed r) →
  users d !! email = Some u →
  ∃ u', users (run rs d) !! email = Some u' ∧ R u u'.
Proof.
  induction rs as [|r rs IH] using rev_ind; intros Hrs Hu; [by exists u|].
  destruct IH as (v & Hv & Huv); [intros r' ?; apply Hrs; set_solver | done |].
  rewrite run_snoc.
  destruct (serve_related r (run rs d) email v) as (w & Hw & Hvw);
    [apply Hrs; set_solver | done |].
  exists w. split; [done|]. by apply (R_trans u v w).
Qed.

End RowRelation.

(** ** Lesson counters *)

Lemma row_step_lessons r u u' col :
  row_step r u u' →
  lessons u col <= lessons u' col ∧
  (is_Some (progress u !! col) → is_Some (progress u' !! col)).
Proof.
  destruct r as [email lang | body | c body | c e]; cbn [row_step].
  - done.
  - intros (score & lang & col0 & _ & _ & _ & ->).
    unfold submitted, lessons. cbn.
    destruct (decide (col0 = col)) as [-> | Hne].
    + rewrite lookup_insert_eq.
      split; [destruct (progress u !! col); cbn; lia | by eauto].
    + by rewrite lookup_insert_ne.
  - intros [-> | (lang & col0 & _ & _ & ->)]; unfold lessons; cbn; [done|].
    destruct (decide (col0 = col)) as [-> | Hne].
    + rewrite lookup_alter_eq. destruct (progress u !! col); cbn; [|done].
      split; [lia | by eauto].
    + by rewrite lookup_alter_ne.
  - by intros ->.
Qed.

(** X4. Over every run of requests, no lesson counter of an existing row
    goes down, and a counter that holds a number does not become NULL. *)
Theorem run_lessons_never_decrease rs d email u col :
  users d !! email = Some u →
  ∃ u',
    users (run rs d) !! email = Some u' ∧
    lessons u col <= lessons u' col ∧
    (is_Some (progress u !! col) → is_Some (progress u' !! col)).
Proof.
  intros Hu.
  apply (run_related (λ _, True)
           (λ u u', lessons u col <= lessons u' col ∧
                    (is_Some (progress u !! col) →
                     is_Some (progress u' !! col)))).
  - intros v. split; [lia | done].
  - intros v1 v2 v3 [H1 H1'] [H2 H2']. split; [lia | auto].
  - intros r v v' _. apply row_step_lessons.
  - done.
  - done.
Qed.

Lemma run_lessons_never_decrease_witness :
  ∃ u',
    users (run [SubmitQuiz (SubmitBody (Some ana) (Some 3) (Some "Hindi"));
                CompleteLesson (noon 7)
                  (LessonBody (Some ana) None (Some "Hindi"))]
             (one_user registered)) !! ana = Some u' ∧
    lessons registered "progress_hindi" <= lessons u' "progress_hindi" ∧
    (is_Some (progress registered !! "progress_hindi") →
     is_Some (progress u' !! "progress_hindi")).
Proof.
  apply (run_lessons_never_decrease
           [SubmitQuiz (SubmitBody (Some ana) (Some 3) (Some "Hindi"));
            CompleteLesson (noon 7)
              (LessonBody (Some ana) None (Some "Hindi"))]
           (one_user registered) ana registered "progress_hindi").
  apply lookup_singleton_eq.
Defined.

(** ** The streak *)

Lemma ping_streak_positive c u : streak_ok u → 1 <= ping_streak c u.
Proof.
  unfold streak_ok. rewrite ping_streak_calendar. cbn zeta.
  destruct (last_active u) as [day|]; [|lia].
  intros H. repeat case_match; lia.
Qed.

Lemma lesson_streak_positive c u : streak_ok u → 1 <= lesson_streak c u.
Proof.
  unfold streak_ok, lesson_streak. rewrite or_zero_Some.
  destruct (last_active u) as [day|]; [|lia].
  intros H. repeat case_match; lia.
Qed.

Lemma row_step_streak_ok r u u' : row_step r u u' → streak_ok u → streak_ok u'.
Proof.
  destruct r as [email lang | body | c body | c e]; cbn [row_step].
  - done.
  - by intros (score & lang & col & _ & _ & _ & ->).
  - intros [-> | (lang & col & _ & _ & ->)] H; unfold streak_ok; cbn;
      by apply lesson_streak_positive.
  - intros -> H. unfold streak_ok. cbn. by apply ping_streak_positive.
Qed.

(** X5. If every stored row has a streak of at least 1 when its last-active
    date is set (and a streak that is not negative otherwise), then so has
    every row after any run of requests: once an activity is recorded the
    streak is never 0. *)
Theorem run_keeps_streak_ok rs d :
  (∀ email u, users d !! email = Some u → streak_ok u) →
  ∀ email u', users (run rs d) !! email = Some u' → streak_ok u'.
Proof.
  intros Hd email u' Hu'.
  assert (is_Some (users d !! email)) as [u Hu].
  { apply elem_of_dom. rewrite <- (run_keeps_emails rs d).
    apply elem_of_dom. by eexists. }
  destruct (run_related (λ _, True) (λ u u', streak_ok u → streak_ok u'))
    with (rs := rs) (d := d) (email := email) (u := u) as (w & Hw & H).
  - auto.
  - auto.
  - intros r v v' _. apply row_step_streak_ok.
  - done.
  - done.
  - rewrite Hu' in Hw. injection Hw as <-. apply H. by apply (Hd email).
Qed.

Lemma run_keeps_streak_ok_witness :
  streak_ok (User 20 Beginner 1 (Some 9) (progress registered)).
Proof.
  apply (run_keeps_streak_ok
           [UpdateStreak (noon 7) (Some ana);
            CompleteLesson (noon 9) (LessonBody (Some ana) None None)]
           (one_user registered)) with (email := ana).
  - intros email u Hu. cbn in Hu. apply lookup_singleton_Some in Hu as [_ <-].
    vm_compute. discriminate.
  - vm_compute. reflexivity.
Defined.

Lemma pinged_again c c' u :
  Date.toDateString c' (now c') = curdate c →
  curdate c' = curdate c →
  pinged c' (pinged c u) = pinged c u.
Proof.
  intros Htoday Hcur. unfold pinged at 1. cbn [xp level progress].
  rewrite ping_streak_calendar, Htoday, Hcur. cbn.
  destruct (Z.eqb_spec (curdate c) (curdate c - 1)); [lia|].
  by rewrite Z.eqb_refl.
Qed.

(** X6. A second ping on the same day changes nothing: when the first
    [update-streak] ran on a day on which process and database agree, a
    second one on that day leaves the table as the first left it and answers
    with the same streak. *)
Theorem second_ping_same_day c c' d email u :
  email ≠ "" →
  users d !! email = Some u →
  Date.toDateString c' (now c') = curdate c →
  curdate c' = curdate c →
  let first := update_streak c (Some email) d in
  let second := update_streak c' (Some email) first.1 in
  users second.1 = users first.1 ∧ second.2 = first.2.
Proof.
  intros He Hu Htoday Hcur first second. subst first second.
  rewrite (update_streak_found _ _ _ _ He Hu). cbn [fst snd].
  rewrite (update_streak_found _ c' email (pinged c u) He)
    by apply lookup_insert_eq.
  cbn [fst snd users]. rewrite insert_insert_eq.
  rewrite (pinged_again c c' u Htoday Hcur). split; [done|].
  f_equal. change (ping_streak c' (pinged c u)) with (streak (pinged c' (pinged c u))).
  by rewrite (pinged_again c c' u Htoday Hcur).
Qed.

Lemma second_ping_same_day_witness :
  let first := update_streak (noon 7) (Some ana) (one_user active) in
  let second := update_streak (noon 7) (Some ana) first.1 in
  users second.1 = users first.1 ∧ second.2 = first.2.
Proof.
  apply (second_ping_same_day (noon 7) (noon 7) (one_user active) ana active).
  - done.
  - apply lookup_singleton_eq.
  - vm_compute. reflexivity.
  - reflexivity.
Defined.

(** X7. In a process whose local time is UTC the two streak policies give
    the same streak for every row whose last-active date is not after today;
    for a last-active date after today they differ: [update-streak] resets
    the streak to 1 and [complete-lesson] leaves it as it is. *)
Theorem policies_in_utc c u :
  tz c = 0 →
  ((∀ day, last_active u = Some day → day <= Date.isoDay (now c)) →
   ping_streak c u = lesson_streak c u) ∧
  (∀ day, last_active u = Some day → Date.isoDay (now c) < day →
          ping_streak c u = 1 ∧ lesson_streak c u = streak u).
Proof.
  intros Htz.
  assert (Date.toDateString c (now c) = Date.isoDay (now c)) as Htoday
    by (unfold Date.toDateString, Date.isoDay; by rewrite Htz, Z.add_0_r).
  assert (∀ day, diffDays c day = Date.isoDay (now c) - day) as Hdiff
    by (intros day; rewrite diffDays_calendar, Htz, Z.div_0_l by discriminate;
        lia).
  rewrite ping_streak_calendar, Htoday. unfold lesson_streak.
  rewrite or_zero_Some. cbn zeta. split.
  - intros H. destruct (last_active u) as [day|]; [|done].
    specialize (H day eq_refl). rewrite Hdiff.
    repeat case_match; lia.
  - intros day -> Hfuture. rewrite Hdiff. repeat case_match; lia.
Qed.

Lemma policies_in_utc_witness :
  ((∀ day, last_active active = Some day →
           day <= Date.isoDay (now (noon 7))) →
   ping_streak (noon 7) active = lesson_streak (noon 7) active) ∧
  (∀ day, last_active active = Some day →
          Date.isoDay (now (noon 7)) < day →
          ping_streak (noon 7) active = 1 ∧
          lesson_streak (noon 7) active = streak active).
Proof. apply (policies_in_utc (noon 7) active). reflexivity. Defined.

(** X8. The day difference of [complete-lesson] is the difference in
    calendar days when the process is at UTC or east of it by less than a
    day, and one day less when it is west of UTC: there a lesson on the day
    after the last activity leaves the streak as it was. *)
Theorem diffDays_by_offset c day :
  (0 <= tz c < MS_PER_DAY → diffDays c day = Date.isoDay (now c) - day) ∧
  (- MS_PER_DAY <= tz c < 0 →
   diffDays c day = Date.isoDay (now c) - day - 1 ∧
   ∀ u, last_active u = Some day → day = Date.isoDay (now c) - 1 →
        lesson_streak c u = streak u).
Proof.
  rewrite diffDays_calendar. split.
  - intros H. rewrite (Z.div_small _ _ H). lia.
  - intros H.
    assert (tz c / MS_PER_DAY = -1) as ->.
    { symmetry. apply (Z.div_unique _ _ _ (tz c + MS_PER_DAY)); lia. }
    split; [lia|]. intros u Hu Hday. unfold lesson_streak.
    rewrite Hu, or_zero_Some, diffDays_calendar.
    replace (tz c / MS_PER_DAY) with (-1)
      by (apply (Z.div_unique _ _ _ (tz c + MS_PER_DAY)); lia).
    repeat case_match; lia.
Qed.

Lemma diffDays_by_offset_witness :
  diffDays (Clock (7 * MS_PER_DAY) (- 3600000) 7) 6
  = Date.isoDay (now (Clock (7 * MS_PER_DAY) (- 3600000) 7)) - 6 - 1 ∧
  ∀ u, last_active u = Some 6 →
       6 = Date.isoDay (now (Clock (7 * MS_PER_DAY) (- 3600000) 7)) - 1 →
       lesson_streak (Clock (7 * MS_PER_DAY) (- 3600000) 7) u = streak u.
Proof.
  apply (proj2 (diffDays_by_offset (Clock (7 * MS_PER_DAY) (- 3600000) 7) 6)).
  cbn. unfold MS_PER_DAY. lia.
Defined.

(** ** Quizzes *)

Lemma submit_again d email a b lang col u :
  email ≠ "" →
  LANG_COLUMN_MAP !! lang = Some col →
  users d !! email = Some u →
  submit (SubmitBody (Some email) (Some b) (Some lang))
    (submit (SubmitBody (Some email) (Some a) (Some lang)) d).1
  = (Db (<[email := submitted (submitted u col a) col b]> (users d))
        (log d ++ [Select email; Update email; Select email; Update email]),
     inr (SubmitResult (xp u + (a + b) * 10)
            (submit_level (xp u + (a + b) * 10)) (lessons u col + 2))).
Proof.
  intros He Hcol Hu. rewrite (submit_found _ _ _ _ _ _ He Hcol Hu). cbn [fst].
  rewrite (submit_found _ _ _ _ col (submitted u col a) He Hcol)
    by apply lookup_insert_eq.
  cbn [users log]. rewrite insert_insert_eq, <- app_assoc. cbn [app].
  assert (lessons (submitted u col a) col = lessons u col + 1) as ->
    by (unfold lessons at 1; cbn; by rewrite lookup_insert_eq).
  cbn [xp submitted].
  replace (xp u + a * 10 + b * 10) with (xp u + (a + b) * 10) by lia.
  by replace (lessons u col + 1 + 1) with (lessons u col + 2) by lia.
Qed.

(** X9. Submitting is not idempotent, and two quizzes add up: after a quiz
    with score [a] and one with score [b] in the same language, the answer
    and the stored row show the old experience plus [(a + b) * 10], its
    level, and the old lesson count plus 2. *)
Theorem submit_twice_adds_up d email a b lang col u :
  email ≠ "" →
  LANG_COLUMN_MAP !! lang = Some col →
  users d !! email = Some u →
  let first := submit (SubmitBody (Some email) (Some a) (Some lang)) d in
  let second :=
    submit (SubmitBody (Some email) (Some b) (Some lang)) first.1 in
  second.2 = inr (SubmitResult (xp u + (a + b) * 10)
                    (level_of (xp u + (a + b) * 10)) (lessons u col + 2)) ∧
  ∃ u',
    users second.1 !! email = Some u' ∧
    xp u' = xp u + (a + b) * 10 ∧
    level u' = level_of (xp u + (a + b) * 10) ∧
    lessons u' col = lessons u col + 2.
Proof.
  intros He Hcol Hu first second. subst first second.
  rewrite (submit_again _ _ _ _ _ _ _ He Hcol Hu). cbn [fst snd users].
  rewrite submit_level_of. split; [done|].
  eexists. rewrite lookup_insert_eq. split; [done|].
  unfold lessons. cbn. rewrite !lookup_insert_eq. cbn.
  rewrite submit_level_of. unfold lessons.
  repeat split; try lia.
  - f_equal. lia.
  - cbn. rewrite lookup_insert_eq. cbn. unfold lessons. lia.
Qed.

Lemma submit_twice_adds_up_witness :
  let first :=
    submit (SubmitBody (Some ana) (Some 10) (Some "Spanish"))
      (one_user registered) in
  let second :=
    submit (SubmitBody (Some ana) (Some 25) (Some "Spanish")) first.1 in
  second.2 = inr (SubmitResult (xp registered + (10 + 25) * 10)
                    (level_of (xp registered + (10 + 25) * 10))
                    (lessons registered "progress_spanish" + 2)) ∧
  ∃ u',
    users second.1 !! ana = Some u' ∧
    xp u' = xp registered + (10 + 25) * 10 ∧
    level u' = level_of (xp registered + (10 + 25) * 10) ∧
    lessons u' "progress_spanish" = lessons registered "progress_spanish" + 2.
Proof.
  apply (submit_twice_adds_up (one_user registered) ana 10 25 "Spanish"
           "progress_spanish" registered).
  - done.
  - vm_compute. reflexivity.
  - apply lookup_singleton_eq.
Defined.

(** X10. What [submit] answers is what [get_progress] then shows: after a
    successful quiz, the progress of the same email and language has the
    experience, the level and the lesson count of the answer, and total 10. *)
Theorem submit_then_get_progress body d d' res email lang :
  submit body d = (d', inr res) →
  sb_email body = Some email →
  sb_lang body = Some lang →
  (get_progress email lang d').2
  = inr (ProgressView (sr_xp res) (sr_level res) (sr_lessonsCompleted res) 10).
Proof.
  intros H Hemail Hlang.
  destruct (submit_success_inv _ _ _ _ H)
    as (e & score & l & col & u & -> & He & Hcol & Hu).
  cbn in Hemail, Hlang. simplify_eq.
  rewrite (submit_found _ _ _ _ _ _ He Hcol Hu) in H. simplify_eq.
  rewrite (get_progress_found _ email lang col (submitted u col score) Hcol)
    by apply lookup_insert_eq.
  cbn. unfold lessons at 1. cbn. by rewrite lookup_insert_eq.
Qed.

Lemma submit_then_get_progress_witness :
  (get_progress ana "Spanish"
     (submit (SubmitBody (Some ana) (Some 10) (Some "Spanish"))
        (one_user registered)).1).2
  = inr (ProgressView 100 Intermediate 1 10).
Proof.
  apply (submit_then_get_progress
           (SubmitBody (Some ana) (Some 10) (Some "Spanish"))
           (one_user registered) _ (SubmitResult 100 Intermediate 1)
           ana "Spanish").
  - vm_compute. reflexivity.
  - reflexivity.
  - reflexivity.
Defined.

(** X11. [submit] does not check the score: for an existing user and a
    supported language it succeeds for every integer and adds ten times the
    score. A negative score takes experience away, and a score of 60 or more
    makes a user without negative experience an Expert at once. *)
Theorem submit_takes_any_score d email score lang u :
  email ≠ "" →
  supported lang →
  users d !! email = Some u →
  ∃ d' res u',
    submit (SubmitBody (Some email) (Some score) (Some lang)) d
      = (d', inr res) ∧
    users d' !! email = Some u' ∧
    xp u' = xp u + score * 10 ∧
    (score < 0 → xp u' < xp u) ∧
    (0 <= xp u → 60 <= score → level u' = Expert).
Proof.
  intros He [col Hcol] Hu. eexists _, _, (submitted u col score).
  split; [exact (submit_found _ _ _ _ _ _ He Hcol Hu)|].
  cbn. rewrite lookup_insert_eq. repeat split; try lia.
  intros Hxp Hscore. rewrite submit_level_of.
  apply (proj2 (proj2 (proj2 (level_of_cases _)))). lia.
Qed.

Lemma submit_takes_any_score_witness :
  ∃ d' res u',
    submit (SubmitBody (Some ana) (Some (-2)) (Some "Urdu")) (one_user active)
      = (d', inr res) ∧
    users d' !! ana = Some u' ∧
    xp u' = xp active + (-2) * 10 ∧
    (-2 < 0 → xp u' < xp active) ∧
    (0 <= xp active → 60 <= -2 → level u' = Expert).
Proof.
  apply (submit_takes_any_score (one_user active) ana (-2) "Urdu" active).
  - done.
  - exists "progress_urdu". vm_compute. reflexivity.
  - apply lookup_singleton_eq.
Defined.

(** ** One counter per language *)

Lemma columns_distinct :
  NoDup (LANG_COLUMN_ENTRIES.*2) ∧ NoDup (LANG_COLUMN_ENTRIES.*1).
Proof. split; apply (bool_decide_unpack _); vm_compute; exact I. Qed.

Lemma column_injective l1 l2 col :
  LANG_COLUMN_MAP !! l1 = Some col →
  LANG_COLUMN_MAP !! l2 = Some col →
  l1 = l2.
Proof.
  intros H1 H2.
  apply elem_of_list_to_map_2, list_elem_of_lookup in H1 as [i Hi].
  apply elem_of_list_to_map_2, list_elem_of_lookup in H2 as [j Hj].
  assert (i = j) as ->.
  { apply (NoDup_lookup (LANG_COLUMN_ENTRIES.*2) i j col).
    - apply columns_distinct.
    - by rewrite list_lookup_fmap, Hi.
    - by rewrite list_lookup_fmap, Hj. }
  congruence.
Qed.

(** X12. The languages have separate counters: no two supported languages
    share a column, so a quiz or a lesson in one language leaves the lesson
    count that [get_progress] shows for every other language as it was. *)
Theorem other_language_untouched d c email score gained l1 l2 c1 c2 u :
  email ≠ "" →
  LANG_COLUMN_MAP !! l1 = Some c1 →
  LANG_COLUMN_MAP !! l2 = Some c2 →
  l1 ≠ l2 →
  users d !! email = Some u →
  c1 ≠ c2 ∧
  (∃ view,
     (get_progress email l2
        (submit (SubmitBody (Some email) (Some score) (Some l1)) d).1).2
       = inr view ∧
     pv_lessonsCompleted view = lessons u c2) ∧
  (∃ view,
     (get_progress email l2
        (complete_lesson c (LessonBody (Some email) gained (Some l1)) d).1).2
       = inr view ∧
     pv_lessonsCompleted view = lessons u c2).
Proof.
  intros He H1 H2 Hne Hu.
  assert (c1 ≠ c2) as Hc by (intros ->; by apply Hne, (column_injective _ _ c2)).
  split; [done|]. split.
  - rewrite (submit_found _ _ _ _ _ _ He H1 Hu). cbn [fst].
    rewrite (get_progress_found _ email l2 c2 (submitted u c1 score) H2)
      by apply lookup_insert_eq.
    eexists. split; [done|]. cbn. unfold lessons at 1. cbn.
    by rewrite lookup_insert_ne.
  - destruct (complete_lesson_with_counter d c email gained l1 c1 u He Hu H1)
      as (-> & _ & _ & Hother).
    cbn [fst].
    rewrite (get_progress_found _ email l2 c2 _ H2) by apply lookup_insert_eq.
    eexists. split; [done|]. cbn [pv_lessonsCompleted]. unfold lessons.
    by rewrite (Hother c2) by done.
Qed.

Lemma other_language_untouched_witness :
  "progress_hindi" ≠ "progress_tamil" ∧
  (∃ view,
     (get_progress ana "Tamil"
        (submit (SubmitBody (Some ana) (Some 4) (Some "Hindi"))
           (one_user registered)).1).2 = inr view ∧
     pv_lessonsCompleted view = lessons registered "progress_tamil") ∧
  (∃ view,
     (get_progress ana "Tamil"
        (complete_lesson (noon 7)
           (LessonBody (Some ana) None (Some "Hindi"))
           (one_user registered)).1).2 = inr view ∧
     pv_lessonsCompleted view = lessons registered "progress_tamil").
Proof.
  apply (other_language_untouched (one_user registered) (noon 7) ana 4 None
           "Hindi" "Tamil" "progress_hindi" "progress_tamil" registered).
  - done.
  - vm_compute. reflexivity.
  - vm_compute. reflexivity.
  - done.
  - apply lookup_singleton_eq.
Defined.

(** ** Reading progress *)

Lemma get_progress_reads email lang d :
  let first := get_progress email lang d in
  users first.1 = users d ∧
  (log first.1 = log d ∨ log first.1 = (log d ++ [Select email])%list) ∧
  (get_progress email lang first.1).2 = first.2.
Proof.
  cbn zeta.
  destruct (lang_classes lang) as [[col Hcol] | [[Hown [v Hv]] | [Hown Hp]]].
  - destruct (users d !! email) as [u|] eqn:Hu.
    + rewrite (get_progress_found _ _ _ _ _ Hcol Hu). cbn [fst snd users log].
      by rewrite (get_progress_found _ _ _ col u Hcol); auto.
    + rewrite (get_progress_not_found _ _ _ _ Hcol Hu). cbn [fst snd users log].
      by rewrite (get_progress_not_found _ _ _ col Hcol); auto.
  - rewrite !(get_progress_inherited _ _ _ _ Hown Hv). auto.
  - rewrite !(get_progress_rejected _ _ _ (no_column _ Hown Hp)). auto.
Qed.

(** X13. [get_progress] only reads: for every email and language, found or
    not, supported or not, it leaves every row as it was, executes at most
    one SELECT and no UPDATE, and a second call gives the same answer. *)
Theorem get_progress_only_reads email lang d :
  let first := get_progress email lang d in
  users first.1 = users d ∧
  (log first.1 = log d ∨ log first.1 = (log d ++ [Select email])%list) ∧
  (get_progress email lang first.1).2 = first.2.
Proof. apply get_progress_reads. Qed.


(** ** Experience and level over a run *)

Lemma row_step_gain r u u' :
  gain_not_negative r →
  row_step r u u' →
  xp u <= xp u' ∧
  (level u = level_of (xp u) → level u' = level_of (xp u')).
Proof.
  destruct r as [email lang | body | c body | c e];
    cbn [row_step gain_not_negative].
  - done.
  - intros H (score & lang & col & Hs & _ & _ & ->). cbn.
    specialize (H score Hs). split; [lia | intros _; apply submit_level_of].
  - intros H [-> | (lang & col & _ & _ & ->)]; cbn;
      (split; [lia | intros _; apply complete_lesson_level_of]).
  - by intros _ ->.
Qed.

(** X14. Over every run of requests that carry no negative score and no
    negative experience, the experience of a row never goes down, and
    neither does the level of a row whose level matched its experience. *)
Theorem run_never_loses_experience rs d email u :
  (∀ r, r ∈ rs → gain_not_negative r) →
  users d !! email = Some u →
  level u = level_of (xp u) →
  ∃ u',
    users (run rs d) !! email = Some u' ∧
    xp u <= xp u' ∧
    level_rank (level u) <= level_rank (level u').
Proof.
  intros Hrs Hu Hsync.
  destruct (run_related gain_not_negative
              (λ u u', xp u <= xp u' ∧
                       (level u = level_of (xp u) →
                        level u' = level_of (xp u'))))
    with (rs := rs) (d := d) (email := email) (u := u)
    as (u' & Hu' & Hxp & Hlevel).
  - intros v. split; [lia | done].
  - intros v1 v2 v3 [H1 H1'] [H2 H2']. split; [lia | auto].
  - intros r v v'. apply row_step_gain.
  - done.
  - done.
  - exists u'. split; [done|]. split; [done|].
    rewrite Hsync, (Hlevel Hsync). by apply level_rank_le.
Qed.

Lemma run_never_loses_experience_witness :
  ∃ u',
    users (run [SubmitQuiz (SubmitBody (Some ana) (Some 9) (Some "French"));
                CompleteLesson (noon 7) (LessonBody (Some ana) None None)]
             (one_user registered)) !! ana = Some u' ∧
    xp registered <= xp u' ∧
    level_rank (level registered) <= level_rank (level u').
Proof.
  apply (run_never_loses_experience
           [SubmitQuiz (SubmitBody (Some ana) (Some 9) (Some "French"));
            CompleteLesson (noon 7) (LessonBody (Some ana) None None)]
           (one_user registered) ana registered).
  - intros r Hr. apply elem_of_cons in Hr as [Hr | Hr].
    { subst r. cbn. intros score [= <-]. lia. }
    apply elem_of_cons in Hr as [Hr | Hr]; [subst r; cbn; lia|].
    by apply elem_of_nil in Hr.
  - apply lookup_singleton_eq.
  - reflexivity.
Defined.

(** ** Two lessons on one day *)

(** X15. A second lesson on the same UTC day, in a process whose offset from
    UTC is less than a day, adds its experience again and leaves the streak
    that the first lesson stored. *)
Theorem second_lesson_same_day c c' d email g1 g2 lang1 lang2 u :
  email ≠ "" →
  users d !! email = Some u →
  Date.isoDay (now c') = Date.isoDay (now c) →
  - MS_PER_DAY <= tz c' < MS_PER_DAY →
  let first := complete_lesson c (LessonBody (Some email) g1 lang1) d in
  let second :=
    complete_lesson c' (LessonBody (Some email) g2 lang2) first.1 in
  ∃ u1 u2,
    users first.1 !! email = Some u1 ∧
    users second.1 !! email = Some u2 ∧
    xp u2 = xp u + default 20 g1 + default 20 g2 ∧
    streak u2 = streak u1 ∧
    last_active u2 = last_active u1.
Proof.
  intros He Hu Hday Htz first second. subst first second.
  destruct (complete_lesson_row d c email g1 lang1 u He Hu)
    as (u1 & Hd1 & Hxp1 & _ & Hs1 & Hl1).
  assert (users (complete_lesson c (LessonBody (Some email) g1 lang1) d).1
            !! email = Some u1) as Hu1
    by (rewrite Hd1; apply lookup_insert_eq).
  destruct (complete_lesson_row _ c' email g2 lang2 u1 He Hu1)
    as (u2 & Hd2 & Hxp2 & _ & Hs2 & Hl2).
  exists u1, u2. rewrite Hd2, lookup_insert_eq.
  repeat split; try done; try lia; [|congruence].
  rewrite Hs2. unfold lesson_streak. rewrite Hl1, or_zero_Some.
  rewrite diffDays_calendar, Hday.
  assert (-1 <= tz c' / MS_PER_DAY <= 0).
  { split.
    - apply Z.div_le_lower_bound; [done | lia].
    - apply Z.lt_succ_r, Z.div_lt_upper_bound; [done | lia]. }
  repeat case_match; lia.
Qed.

Lemma second_lesson_same_day_witness :
  let first :=
    complete_lesson (noon 7) (LessonBody (Some ana) None None)
      (one_user active) in
  let second :=
    complete_lesson (noon 7) (LessonBody (Some ana) (Some 5) (Some "Urdu"))
      first.1 in
  ∃ u1 u2,
    users first.1 !! ana = Some u1 ∧
    users second.1 !! ana = Some u2 ∧
    xp u2 = xp active + default 20 None + default 20 (Some 5) ∧
    streak u2 = streak u1 ∧
    last_active u2 = last_active u1.
Proof.
  apply (second_lesson_same_day (noon 7) (noon 7) (one_user active) ana None
           (Some 5) None (Some "Urdu") active).
  - done.
  - apply lookup_singleton_eq.
  - reflexivity.
  - cbn. unfold MS_PER_DAY. lia.
Defined.

(** ** The statements of a request *)

(** X16. Every request reads before it writes: the statements it executes
    are none, or the SELECT of the email it names followed by at most two
    UPDATEs of that email. *)
Theorem serve_statements r d :
  ∃ l,
    log (serve r d).1 = (log d ++ l)%list ∧
    (l = [] ∨
     ∃ email,
       request_email r = Some email ∧
       (l = [Select email] ∨ l = [Select email; Update email] ∨
        l = [Select email; Update email; Update email])).
Proof.
  destruct r as [email lang | [e s l] | c [e g l] | c e]; cbn [serve fst].
  - destruct (get_progress_reads email lang d) as (_ & [-> | ->] & _).
    + exists []. by rewrite app_nil_r; auto.
    + eexists. split; [done|]. right. exists email. auto.
  - destruct (JS.present e) as [email|] eqn:He;
      [| exists []; rewrite submit_missing_field, app_nil_r by (cbn; auto);
         auto].
    apply present_inv in He as [-> He].
    destruct s as [score|];
      [| exists []; rewrite submit_missing_field, app_nil_r by (cbn; auto);
         auto].
    destruct (JS.present l) as [lang|] eqn:Hl;
      [| exists []; rewrite submit_missing_field, app_nil_r by (cbn; auto);
         auto].
    apply present_inv in Hl as [-> Hl].
    destruct (lang_classes lang) as [[col Hcol] | [[Hown [v Hv]] | [Hown Hp]]].
    + destruct (users d !! email) as [u|] eqn:Hu.
      * rewrite (submit_found _ _ _ _ _ _ He Hcol Hu).
        eexists. split; [done|]. right. exists email. auto.
      * rewrite (submit_not_found _ _ _ _ _ He Hcol Hu).
        eexists. split; [done|]. right. exists email. auto.
    + rewrite (submit_inherited _ _ _ _ _ He Hown Hv).
      exists []. by rewrite app_nil_r; auto.
    + rewrite (submit_rejected _ _ _ _ He Hl (no_column _ Hown Hp)).
      exists []. by rewrite app_nil_r; auto.
  - destruct (JS.present e) as [email|] eqn:He;
      [| exists []; rewrite complete_lesson_missing_email, app_nil_r by done;
         auto].
    apply present_inv in He as [-> He].
    destruct (users d !! email) as [u|] eqn:Hu.
    + rewrite (complete_lesson_found _ _ _ _ _ _ He Hu).
      destruct (JS.present l ≫= getProgressColumn) as [pc|];
        [destruct (is_column (JS.template pc))|];
        (eexists; split; [done|]; right; exists email; auto).
    + rewrite (complete_lesson_not_found _ _ _ _ _ He Hu).
      eexists. split; [done|]. right. exists email. auto.
  - destruct (JS.present e) as [email|] eqn:He;
      [| exists []; rewrite update_streak_missing_email, app_nil_r by done;
         auto].
    apply present_inv in He as [-> He].
    destruct (users d !! email) as [u|] eqn:Hu.
    + rewrite (update_streak_found _ _ _ _ He Hu).
      eexists. split; [done|]. right. exists email. auto.
    + rewrite (update_streak_not_found _ _ _ He Hu).
      eexists. split; [done|]. right. exists email. auto.
Qed.

(** ** The question bank *)

Lemma get_questions_served lang :
  is_Some (get_questions lang) ↔ lang ∈ QUESTION_LANGUAGES.
Proof.
  unfold get_questions, QUESTION_LANGUAGES. split.
  - repeat (case_bool_decide as H; [subst lang; intros _; set_solver | clear H]).
    by intros [? ?].
  - intros H. each_entry H; vm_compute; by eexists.
Qed.

(** X17. Every question the server hands out can be answered: whatever the
    language, the list of its questions is not empty, and each question has
    four different options with the answer among them. *)
Theorem questions_answerable lang qs :
  get_questions lang = Some qs → qs ≠ [] ∧ Forall answerable qs.
Proof.
  unfold get_questions.
  repeat (case_bool_decide as H;
          [intros [= <-]; split;
           [done | apply (bool_decide_unpack _); vm_compute; exact I]
          | clear H]).
  done.
Qed.

Lemma questions_answerable_witness :
  HINDI_QUESTIONS ≠ [] ∧ Forall answerable HINDI_QUESTIONS.
Proof. apply (questions_answerable "Hindi" HINDI_QUESTIONS). reflexivity. Defined.

(** X18. Questions and progress cover the same languages but for one: every
    language with questions is a supported language, and the only supported
    language without questions (the request ends with 404) is Korean. *)
Theorem questions_and_progress_languages lang :
  (is_Some (get_questions lang) → supported lang) ∧
  (supported lang → (get_questions lang = None ↔ lang = "Korean")).
Proof.
  split.
  - intros H. apply get_questions_served in H. unfold QUESTION_LANGUAGES in H.
    each_entry H; unfold supported; vm_compute; by eexists.
  - intros [col H]. apply elem_of_list_to_map_2 in H.
    unfold LANG_COLUMN_ENTRIES in H.
    each_entry H; vm_compute; split; intros; done.
Qed.

Lemma questions_and_progress_languages_witness :
  get_questions "Korean" = None ↔ "Korean" = "Korean".
Proof.
  apply (proj2 (questions_and_progress_languages "Korean")).
  exists "progress_korean". vm_compute. reflexivity.
Defined.

(** * Accounts *)

Section Accounts.

Variable bcrypt_hash : string → string → string.
Variable bcrypt_compare : string → string → bool.
Variable jwt_sign : string * Z → Z → string.
Variable default_streak : Z.
Variable default_last_active : option Z.
Variable default_progress : gmap string Z.

Local Abbreviation register' :=
  (register bcrypt_hash default_streak default_last_active default_progress).
Local Abbreviation site_run' :=
  (site_run bcrypt_hash default_streak default_last_active default_progress).
Local Abbreviation site_serve' :=
  (site_serve bcrypt_hash default_streak default_last_active default_progress).
Local Abbreviation new_row :=
  (User 0 Beginner default_streak default_last_active default_progress).

Lemma register_fresh salt new_id name email password lang s :
  name ≠ "" → email ≠ "" → password ≠ "" →
  accounts s !! email = None →
  register' salt new_id
    (RegisterBody (Some name) (Some email) (Some password) lang) s
  = (Site (<[email := Account new_id name (bcrypt_hash password salt)
                        (default "Spanish" (JS.present lang)) 0]>
             (accounts s))
          (Db (<[email := new_row]> (users (store s))) (log (store s))),
     inr tt).
Proof.
  intros Hn He Hp Hfree. unfold register.
  cbn [rb_name rb_email rb_password rb_learning_lang].
  by rewrite (present_Some name Hn), (present_Some email He),
    (present_Some password Hp), Hfree.
Qed.

Lemma register_unchanged salt new_id body s :
  (register' salt new_id body s).2 ≠ inr tt →
  (register' salt new_id body s).1 = s.
Proof.
  unfold register.
  destruct (JS.present (rb_name body)), (JS.present (rb_email body)) as [e|],
    (JS.present (rb_password body)); try done.
  by destruct (accounts s !! e).
Qed.

Lemma register_same_rows salt new_id body s :
  same_rows s → same_rows (register' salt new_id body s).1.
Proof.
  unfold same_rows, register. intros H.
  destruct (JS.present (rb_name body)), (JS.present (rb_email body)) as [e|],
    (JS.present (rb_password body)); try done.
  destruct (accounts s !! e); [done|]. cbn. by rewrite !dom_insert_L, H.
Qed.

Lemma site_serve_same_rows q s : same_rows s → same_rows (site_serve' q s).
Proof.
  destruct q as [salt new_id body | r]; cbn [site_serve].
  - apply register_same_rows.
  - unfold same_rows. cbn. by rewrite serve_dom.
Qed.

Lemma site_run_snoc qs q s :
  site_run' (qs ++ [q]) s = site_serve' q (site_run' qs s).
Proof. unfold site_run. by rewrite foldl_app. Qed.

Lemma site_run_same_rows qs s : same_rows s → same_rows (site_run' qs s).
Proof.
  intros H. induction qs as [|q qs IH] using rev_ind; [done|].
  rewrite site_run_snoc. by apply site_serve_same_rows.
Qed.

(** X19. A registration with name, email and password for an email that is
    not taken succeeds and adds one row: experience 0 and level Beginner
    (the level of experience 0), the given name, the hash of the password,
    score 0, and the given learning language or Spanish when none is given;
    every other row stays as it was. *)
Theorem register_adds_beginner salt new_id name email password lang s :
  name ≠ "" → email ≠ "" → password ≠ "" →
  accounts s !! email = None →
  let after := register' salt new_id
                 (RegisterBody (Some name) (Some email) (Some password) lang)
                 s in
  after.2 = inr tt ∧
  accounts after.1 !! email
    = Some (Account new_id name (bcrypt_hash password salt)
              (default "Spanish" (JS.present lang)) 0) ∧
  (∃ u, users (store after.1) !! email = Some u ∧
        xp u = 0 ∧ level u = Beginner ∧ level u = level_of (xp u)) ∧
  (∀ other, other ≠ email →
     accounts after.1 !! other = accounts s !! other ∧
     users (store after.1) !! other = users (store s) !! other).
Proof.
  intros Hn He Hp Hfree after. subst after.
  rewrite (register_fresh _ _ _ _ _ _ _ Hn He Hp Hfree). cbn.
  rewrite !lookup_insert_eq. repeat split; try done.
  - by eexists.
  - by rewrite lookup_insert_ne.
  - by rewrite lookup_insert_ne.
Qed.

(** X20. A registration never overwrites: for an email that is taken it
    ends with 409, with a missing name, email or password it ends with 400,
    and a registration that does not succeed leaves the table as it was. *)
Theorem register_never_overwrites salt new_id body s :
  (∀ name email password a,
     JS.present (rb_name body) = Some name →
     JS.present (rb_email body) = Some email →
     JS.present (rb_password body) = Some password →
     accounts s !! email = Some a →
     register' salt new_id body s = (s, inl AlreadyExists)) ∧
  (JS.present (rb_name body) = None ∨ JS.present (rb_email body) = None ∨
   JS.present (rb_password body) = None →
   register' salt new_id body s = (s, inl MissingFields)) ∧
  ((register' salt new_id body s).2 ≠ inr tt →
   (register' salt new_id body s).1 = s).
Proof.
  split; [|split].
  - intros name email password a Hn He Hp Ha. unfold register.
    by rewrite Hn, He, Hp, Ha.
  - unfold register. intros [H | [H | H]]; rewrite H; try done.
    + by destruct (JS.present (rb_name body)).
    + by destruct (JS.present (rb_name body)), (JS.present (rb_email body)).
  - apply register_unchanged.
Qed.

(** X21. After a registration the user can log in: with a bcrypt whose
    [compare] accepts a password against its own hash, a login with the
    registered email and password succeeds and returns the registered name
    and email and the token signed for that email and id; a password that
    [compare] rejects against the stored hash ends with 401. *)
Theorem register_then_login salt new_id name email password lang time s :
  (∀ pw sl, bcrypt_compare pw (bcrypt_hash pw sl) = true) →
  name ≠ "" → email ≠ "" → password ≠ "" →
  accounts s !! email = None →
  let after := (register' salt new_id
                  (RegisterBody (Some name) (Some email) (Some password) lang)
                  s).1 in
  login bcrypt_compare jwt_sign time (Some email) (Some password) s = inl NoSuchUser ∧
  login bcrypt_compare jwt_sign time (Some email) (Some password) after
    = inr (LoginResult (jwt_sign (email, new_id) time) name email) ∧
  (∀ other,
     other ≠ "" →
     bcrypt_compare other (bcrypt_hash password salt) = false →
     login bcrypt_compare jwt_sign time (Some email) (Some other) after = inl WrongPassword).
Proof.
  intros Hb Hn He Hp Hfree after. subst after.
  rewrite (register_fresh _ _ _ _ _ _ _ Hn He Hp Hfree). cbn [fst].
  unfold login. rewrite (present_Some email He), (present_Some password Hp).
  cbn [accounts]. rewrite Hfree, lookup_insert_eq.
  cbn [acc_password acc_id acc_name]. rewrite Hb.
  split; [done|]. split; [done|].
  intros other Ho Hwrong. by rewrite (present_Some other Ho), Hwrong.
Qed.

(** X22. No request writes the score: in a table built from no rows by any
    run of registrations and progress requests every row has score 0, and so
    has every entry of the leaderboard, whatever experience it shows. *)
Theorem score_stays_zero qs :
  (∀ email a, accounts (site_run' qs no_rows) !! email = Some a →
              acc_score a = 0) ∧
  (∀ e, e ∈ leaderboard (site_run' qs no_rows) → be_score e = 0).
Proof.
  assert (∀ email a, accounts (site_run' qs no_rows) !! email = Some a →
                     acc_score a = 0) as Hzero.
  { induction qs as [|q qs IH] using rev_ind; [done|].
    rewrite site_run_snoc. destruct q as [salt new_id body | r];
      cbn [site_serve accounts]; [|exact IH].
    unfold register.
    destruct (JS.present (rb_name body)), (JS.present (rb_email body)) as [e|],
      (JS.present (rb_password body)); try exact IH.
    destruct (accounts _ !! e) eqn:Hfree; [exact IH|]. cbn.
    intros email a. rewrite lookup_insert. case_decide; [|apply IH].
    by intros [= <-]. }
  split; [exact Hzero|].
  intros e He. unfold leaderboard in He.
  apply elem_of_take in He as (i & He & _).
  apply list_elem_of_lookup_2 in He. rewrite merge_sort_Permutation in He.
  unfold board_rows in He. apply list_elem_of_fmap in He as ([k [a u]] & -> & H).
  apply elem_of_map_to_list, map_lookup_zip_Some in H as [Ha _].
  cbn in *. by apply (Hzero k).
Qed.

End Accounts.

Lemma register_adds_beginner_witness :
  let after :=
    register plain_hash 0 None ∅ "salt" 2
      (RegisterBody (Some "Bo") (Some bo) (Some "hunter2") None)
      ana_registered in
  after.2 = inr tt ∧
  accounts after.1 !! bo
    = Some (Account 2 "Bo" (plain_hash "hunter2" "salt")
              (default "Spanish" (JS.present None)) 0) ∧
  (∃ u, users (store after.1) !! bo = Some u ∧
        xp u = 0 ∧ level u = Beginner ∧ level u = level_of (xp u)) ∧
  (∀ other, other ≠ bo →
     accounts after.1 !! other = accounts ana_registered !! other ∧
     users (store after.1) !! other
       = users (store ana_registered) !! other).
Proof.
  apply (register_adds_beginner plain_hash 0 None ∅ "salt" 2 "Bo" bo
           "hunter2" None ana_registered); try done.
Defined.

Lemma register_never_overwrites_witness :
  register plain_hash 0 None ∅ "salt" 2
    (RegisterBody (Some "Ana again") (Some ana) (Some "other") None)
    ana_registered
  = (ana_registered, inl AlreadyExists).
Proof.
  apply (proj1 (register_never_overwrites plain_hash 0 None ∅ "salt" 2
                  (RegisterBody (Some "Ana again") (Some ana) (Some "other")
                     None) ana_registered)
           "Ana again" ana "other" (Account 1 "Ana" "secret" "Spanish" 0));
    reflexivity.
Defined.

Lemma register_then_login_witness :
  let after :=
    (register plain_hash 0 None ∅ "salt" 2
       (RegisterBody (Some "Bo") (Some bo) (Some "hunter2") None)
       ana_registered).1 in
  login plain_compare plain_sign 5 (Some bo) (Some "hunter2") ana_registered
    = inl NoSuchUser ∧
  login plain_compare plain_sign 5 (Some bo) (Some "hunter2") after
    = inr (LoginResult (plain_sign (bo, 2) 5) "Bo" bo) ∧
  (∀ other,
     other ≠ "" →
     plain_compare other (plain_hash "hunter2" "salt") = false →
     login plain_compare plain_sign 5 (Some bo) (Some other) after
       = inl WrongPassword).
Proof.
  apply (register_then_login plain_hash plain_compare plain_sign 0 None ∅
           "salt" 2 "Bo" bo "hunter2" None 5 ana_registered); try done.
  intros pw sl. unfold plain_compare, plain_hash. by apply bool_decide_eq_true.
Defined.

Lemma score_stays_zero_witness :
  acc_score (Account 1 "Ana" (plain_hash "secret" "salt") "Spanish" 0) = 0.
Proof.
  apply (proj1 (score_stays_zero plain_hash 0 None ∅
                  [Register "salt" 1
                     (RegisterBody (Some "Ana") (Some ana) (Some "secret")
                        None);
                   Progress (SubmitQuiz
                               (SubmitBody (Some ana) (Some 4)
                                  (Some "Hindi")))]) ana).
  vm_compute. reflexivity.
Defined.

(** ** Dashboard *)

(** X23. The dashboard and [get_progress] show the same row: for an existing
    user and a supported language they agree on experience and level, and,
    for every language but Korean, the dashboard lists the column of that
    language with the stored value that [get_progress] reports (NULL as 0).
    The dashboard has no column for Korean. *)
Theorem dashboard_matches_progress s email lang col a u :
  accounts s !! email = Some a →
  users (store s) !! email = Some u →
  LANG_COLUMN_MAP !! lang = Some col →
  ∃ view p,
    dashboard email s = inr view ∧
    (get_progress email lang (store s)).2 = inr p ∧
    dv_xp view = pv_xp p ∧
    dv_level view = pv_level p ∧
    (lang ≠ "Korean" →
     (col, progress u !! col) ∈ dv_progress view ∧
     pv_lessonsCompleted p = default 0 (progress u !! col)) ∧
    (lang = "Korean" → ∀ v, (col, v) ∉ dv_progress view).
Proof.
  intros Ha Hu Hcol. unfold dashboard. rewrite Ha, Hu.
  rewrite (get_progress_found _ _ _ _ _ Hcol Hu). eexists _, _.
  split; [done|]. split; [done|]. cbn. split; [done|]. split; [done|].
  apply elem_of_list_to_map_2 in Hcol. unfold LANG_COLUMN_ENTRIES in Hcol.
  split.
  - intros Hk. split; [|done]. each_entry Hcol; try done; set_solver.
  - intros -> v Hin. each_entry Hcol. each_entry Hin.
Qed.

Lemma dashboard_matches_progress_witness :
  ∃ view p,
    dashboard ana ana_registered = inr view ∧
    (get_progress ana "Tamil" (store ana_registered)).2 = inr p ∧
    dv_xp view = pv_xp p ∧
    dv_level view = pv_level p ∧
    ("Tamil" ≠ "Korean" →
     ("progress_tamil", progress registered !! "progress_tamil")
       ∈ dv_progress view ∧
     pv_lessonsCompleted p
       = default 0 (progress registered !! "progress_tamil")) ∧
    ("Tamil" = "Korean" → ∀ v, ("progress_tamil", v) ∉ dv_progress view).
Proof.
  apply (dashboard_matches_progress ana_registered ana "Tamil"
           "progress_tamil" (Account 1 "Ana" "secret" "Spanish" 0) registered).
  - apply lookup_singleton_eq.
  - apply lookup_singleton_eq.
  - vm_compute. reflexivity.
Defined.

(** ** Leaderboard *)

Lemma elem_of_board_rows s e :
  e ∈ board_rows s ↔
  ∃ email a u,
    accounts s !! email = Some a ∧ users (store s) !! email = Some u ∧
    e = BoardEntry (acc_name a) (acc_learning_lang a) (acc_score a)
          (xp u) (level u).
Proof.
  unfold board_rows. rewrite list_elem_of_fmap. split.
  - intros ([email [a u]] & -> & H).
    apply elem_of_map_to_list, map_lookup_zip_Some in H as [Ha Hu].
    by exists email, a, u.
  - intros (email & a & u & Ha & Hu & ->). exists (email, (a, u)).
    split; [done|]. by apply elem_of_map_to_list, map_lookup_zip_Some.
Qed.

(** X24. The leaderboard is the top ten by experience: it has ten entries,
    or as many as there are rows when there are fewer; it is in descending
    order of experience; each entry is the projection of a row; and a row
    that is not listed has no more experience than any listed entry. *)
Theorem leaderboard_top_ten s :
  length (leaderboard s) = (10 `min` length (board_rows s))%nat ∧
  StronglySorted xp_desc (leaderboard s) ∧
  (∀ e, e ∈ leaderboard s →
     ∃ email a u,
       accounts s !! email = Some a ∧ users (store s) !! email = Some u ∧
       e = BoardEntry (acc_name a) (acc_learning_lang a) (acc_score a)
             (xp u) (level u)) ∧
  (∀ email a u,
     accounts s !! email = Some a → users (store s) !! email = Some u →
     BoardEntry (acc_name a) (acc_learning_lang a) (acc_score a)
       (xp u) (level u) ∈ leaderboard s ∨
     ∀ t, t ∈ leaderboard s → xp u <= be_xp t).
Proof.
  unfold leaderboard.
  pose proof (StronglySorted_merge_sort xp_desc (board_rows s)) as Hsorted.
  pose proof (merge_sort_Permutation xp_desc (board_rows s)) as Hperm.
  set (l := merge_sort xp_desc (board_rows s)) in *.
  rewrite <- (take_drop 10 l) in Hsorted.
  split; [by rewrite length_take, Hperm|].
  split; [by apply StronglySorted_app_1_l in Hsorted|].
  split.
  - intros e He. apply elem_of_board_rows. rewrite <- Hperm.
    apply elem_of_take in He as (i & He & _).
    by apply list_elem_of_lookup_2 in He.
  - intros email a u Ha Hu.
    set (e := BoardEntry (acc_name a) (acc_learning_lang a) (acc_score a)
                (xp u) (level u)).
    assert (e ∈ l) as He
      by (rewrite Hperm; apply elem_of_board_rows; by exists email, a, u).
    rewrite <- (take_drop 10 l) in He. apply elem_of_app in He as [He | He];
      [by left | right].
    intros t Ht.
    exact (StronglySorted_app_1_elem_of _ _ _ _ _ Hsorted Ht He).
Qed.

Lemma leaderboard_top_ten_witness :
  BoardEntry "Ana" "Spanish" 0 0 Beginner ∈ leaderboard ana_registered ∨
  ∀ t, t ∈ leaderboard ana_registered → xp registered <= be_xp t.
Proof.
  apply (proj2 (proj2 (proj2 (leaderboard_top_ten ana_registered))) ana
           (Account 1 "Ana" "secret" "Spanish" 0) registered).
  - apply lookup_singleton_eq.
  - apply lookup_singleton_eq.
Defined.

(** ** The token check *)

Lemma split_space_word s : has_space s = false → split_space s = [s].
Proof.
  induction s as [|c s IH]; [done|]. cbn. case_bool_decide; [done|].
  cbn. intros Hs. by rewrite (IH Hs).
Qed.

Lemma split_space_first a b :
  has_space a = false →
  split_space (a +:+ String " "%char b) = a :: split_space b.
Proof.
  induction a as [|c a IH]; [done|]. cbn [has_space].
  case_bool_decide as Hc; [done|]. cbn [orb]. intros Ha.
  change (String c a +:+ String " "%char b)
    with (String c (a +:+ String " "%char b)).
  cbn [split_space]. by rewrite (bool_decide_false _ Hc), (IH Ha).
Qed.

Lemma append_space_nonempty a b : a +:+ " " +:+ b ≠ "".
Proof. by destruct a. Qed.

Lemma authMiddleware_second_word_aux jwt_verify time scheme token :
  has_space scheme = false →
  has_space token = false →
  token ≠ "" →
  authMiddleware jwt_verify time (Some (scheme +:+ " " +:+ token))
    = match jwt_verify token time with
      | Some payload => inr payload
      | None => inl InvalidToken
      end.
Proof.
  intros Hs Ht Hne. unfold authMiddleware.
  rewrite (present_Some _ (append_space_nonempty scheme token)).
  cbn zeta. change (scheme +:+ " " +:+ token)
    with (scheme +:+ String " "%char token).
  rewrite (split_space_first _ _ Hs), (split_space_word _ Ht).
  cbn [lookup list_lookup]. by rewrite (present_Some token Hne).
Qed.

(** X25. [authMiddleware] takes the second word of the header as the token
    and does not look at the first: for every first word and every token
    without spaces, the token not empty, the outcome is that of
    [jwt.verify] on the token. A header that is missing or empty ends with
    'Authorization header missing', and one of a single word with 'Token
    required'. *)
Theorem authMiddleware_second_word jwt_verify time scheme token :
  has_space scheme = false →
  has_space token = false →
  token ≠ "" →
  authMiddleware jwt_verify time (Some (scheme +:+ " " +:+ token))
    = match jwt_verify token time with
      | Some payload => inr payload
      | None => inl InvalidToken
      end ∧
  authMiddleware jwt_verify time (Some token) = inl TokenRequired ∧
  authMiddleware jwt_verify time None = inl HeaderMissing ∧
  authMiddleware jwt_verify time (Some "") = inl HeaderMissing.
Proof.
  intros Hs Ht Hne. split; [by apply authMiddleware_second_word_aux|].
  unfold authMiddleware. repeat split.
  rewrite (present_Some token Hne). cbn zeta.
  by rewrite (split_space_word _ Ht).
Qed.

Lemma authMiddleware_second_word_witness :
  authMiddleware plain_verify 5 (Some ("Bearer" +:+ " " +:+ bo))
    = match plain_verify bo 5 with
      | Some payload => inr payload
      | None => inl InvalidToken
      end ∧
  authMiddleware plain_verify 5 (Some bo) = inl TokenRequired ∧
  authMiddleware plain_verify 5 None = inl HeaderMissing ∧
  authMiddleware plain_verify 5 (Some "") = inl HeaderMissing.
Proof.
  apply (authMiddleware_second_word plain_verify 5 "Bearer" bo);
    [reflexivity | reflexivity | done].
Defined.

(** X26. The token of a login passes [authMiddleware]: when [jwt.verify]
    accepts the token at the time of the check, and the token is not empty
    and has no space, the header ['Bearer ' + token] is accepted with the
    email and the id of the row that logged in, and the login returned that
    row's name and email. *)
Theorem login_token_accepted bcrypt_compare jwt_sign jwt_verify
    time later email password s a result :
  accounts s !! email = Some a →
  login bcrypt_compare jwt_sign time (Some email) (Some password) s
    = inr result →
  jwt_verify (jwt_sign (email, acc_id a) time) later
    = Some (email, acc_id a) →
  has_space (jwt_sign (email, acc_id a) time) = false →
  jwt_sign (email, acc_id a) time ≠ "" →
  lg_email result = email ∧
  lg_name result = acc_name a ∧
  authMiddleware jwt_verify later
    (Some ("Bearer" +:+ " " +:+ lg_token result))
    = inr (email, acc_id a).
Proof.
  intros Ha Hlogin Hverify Hsp Hne. unfold login in Hlogin.
  destruct (JS.present (Some email)) as [e|] eqn:He; [|done].
  apply present_inv in He as [[= <-] He].
  destruct (JS.present (Some password)) as [pw|]; [|done].
  rewrite Ha in Hlogin.
  destruct (bcrypt_compare pw (acc_password a)); [|done].
  injection Hlogin as <-. cbn. repeat split.
  rewrite (authMiddleware_second_word_aux jwt_verify later "Bearer"
             (jwt_sign (email, acc_id a) time) eq_refl Hsp Hne).
  by rewrite Hverify.
Qed.

Lemma login_token_accepted_witness :
  lg_email (LoginResult (plain_sign (ana, 1) 5) "Ana" ana) = ana ∧
  lg_name (LoginResult (plain_sign (ana, 1) 5) "Ana" ana)
    = acc_name (Account 1 "Ana" "secret" "Spanish" 0) ∧
  authMiddleware plain_verify 9
    (Some ("Bearer" +:+ " "
           +:+ lg_token (LoginResult (plain_sign (ana, 1) 5) "Ana" ana)))
    = inr (ana, acc_id (Account 1 "Ana" "secret" "Spanish" 0)).
Proof.
  apply (login_token_accepted plain_compare plain_sign plain_verify 5 9 ana
           "secret" ana_registered (Account 1 "Ana" "secret" "Spanish" 0)
           (LoginResult (plain_sign (ana, 1) 5) "Ana" ana)).
  - apply lookup_singleton_eq.
  - vm_compute. reflexivity.
  - reflexivity.
  - reflexivity.
  - done.
Defined.

(** ** From registration to the first quiz *)

(** X27. A new user's first quiz: after a registration, a quiz with a score
    in a supported language succeeds, and [get_progress] then shows ten
    times the score as experience, the level of that experience, and one
    lesson more than the default of the language's counter. *)
Theorem register_then_submit bcrypt_hash default_streak default_last_active
    default_progress salt new_id name email password learning_lang s
    score lang col :
  name ≠ "" → email ≠ "" → password ≠ "" →
  accounts s !! email = None →
  LANG_COLUMN_MAP !! lang = Some col →
  let registered_site :=
    (register bcrypt_hash default_streak default_last_active default_progress
       salt new_id
       (RegisterBody (Some name) (Some email) (Some password) learning_lang)
       s).1 in
  let submitted_store :=
    (submit (SubmitBody (Some email) (Some score) (Some lang))
       (store registered_site)).1 in
  (get_progress email lang submitted_store).2
  = inr (ProgressView (score * 10) (level_of (score * 10))
           (default 0 (default_progress !! col) + 1) 10).
Proof.
  intros Hn He Hp Hfree Hcol registered_site submitted_store.
  subst registered_site submitted_store.
  rewrite (register_fresh _ _ _ _ _ _ _ _ _ _ _ Hn He Hp Hfree). cbn [fst store].
  rewrite (submit_found _ email score lang col
             (User 0 Beginner default_streak default_last_active
                default_progress) He Hcol)
    by apply lookup_insert_eq.
  cbn [fst users].
  rewrite (get_progress_found _ email lang col _ Hcol)
    by apply lookup_insert_eq.
  cbn. unfold lessons. cbn. by rewrite lookup_insert_eq, submit_level_of.
Qed.

Lemma register_then_submit_witness :
  (get_progress bo "Punjabi"
     (submit (SubmitBody (Some bo) (Some 4) (Some "Punjabi"))
        (store (register plain_hash 0 None ∅ "salt" 2
                  (RegisterBody (Some "Bo") (Some bo) (Some "hunter2") None)
                  ana_registered).1)).1).2
  = inr (ProgressView (4 * 10) (level_of (4 * 10))
           (default 0 ((∅ : gmap string Z) !! "progress_punjabi") + 1) 10).
Proof.
  apply (register_then_submit plain_hash 0 None ∅ "salt" 2 "Bo" bo "hunter2"
           None ana_registered 4 "Punjabi" "progress_punjabi"); try done.
Defined.
